(** * fieldwire-to-teams: the poll / render / deliver pipeline

    A shallow embedding of [src/modules/card.py], [src/modules/send.py],
    [src/modules/fetch.py] and [src/modules/auth.py].

    Python data is modelled by a type of JSON-like values; an exception
    is an [outcome] that is [Raised]; the objects the integration holds
    (the auth object, the webhook sender) and the outside world (the
    clock, the HTTP exchanges) live in one explicit [machine] state that
    every method threads through. The remote servers, the sleeping
    behaviour of the operating system and the Jinja2 template on disk
    are parameters: every theorem holds whatever they do. *)

From Stdlib Require Import ZArith QArith List String Ascii Bool Lia Lqa.
From Stdlib Require Import DecimalString DecimalPos DecimalZ.
Import ListNotations.

#[local] Set Warnings "-register-all".
#[local] Close Scope Q_scope.
#[local] Open Scope string_scope.

(** ** Python values *)

Module Py.

(** The values that [json.loads] / [response.json()] produce and that the
    code builds literally. Numbers are integers (no field the code reads
    is a float). A dict is an association list in insertion order whose
    first binding of a key is the live one. *)
Inductive value : Type :=
| VNone
| VBool (b : bool)
| VInt (n : Z)
| VStr (s : string)
| VList (items : list value)
| VDict (entries : list (string * value)).

Definition dict := list (string * value).

(** [d[k]] when present. *)
Fixpoint dict_lookup (d : dict) (k : string) : option value :=
  match d with
  | [] => None
  | (k', v) :: rest => if String.eqb k' k then Some v else dict_lookup rest k
  end.

(** [d.get(k, default)] on a dict. *)
Definition dict_get (d : dict) (k : string) (default : value) : value :=
  match dict_lookup d k with
  | Some v => v
  | None => default
  end.

(** [bool(v)]: what [if v:] and [not v] test. *)
Definition truthy (v : value) : bool :=
  match v with
  | VNone => false
  | VBool b => b
  | VInt n => negb (n =? 0)%Z
  | VStr s => negb (String.eqb s "")
  | VList l => match l with [] => false | _ => true end
  | VDict d => match d with [] => false | _ => true end
  end.

(** *** [str] and [repr], as f-strings use them *)

Definition string_of_Z (n : Z) : string :=
  NilZero.string_of_int (Z.to_int n).

Definition squote : ascii := ascii_of_nat 39.
Definition dquote : ascii := ascii_of_nat 34.
Definition backslash : ascii := ascii_of_nat 92.

Fixpoint mentions (c : ascii) (s : string) : bool :=
  match s with
  | EmptyString => false
  | String c' rest => Ascii.eqb c c' || mentions c rest
  end.

Definition hex_digit (n : nat) : ascii :=
  nth n (list_ascii_of_string "0123456789abcdef") "0"%char.

(** One character of [repr(str)]; bytes above 127 are kept as they are. *)
Definition escape_char (quote c : ascii) : string :=
  let n := nat_of_ascii c in
  if Ascii.eqb c quote || Ascii.eqb c backslash then
    String backslash (String c "")
  else if (n =? 9)%nat then String backslash "t"
  else if (n =? 10)%nat then String backslash "n"
  else if (n =? 13)%nat then String backslash "r"
  else if (n <? 32)%nat || (n =? 127)%nat then
    String backslash
      (String "x" (String (hex_digit (n / 16)) (String (hex_digit (n mod 16)) "")))
  else String c "".

Fixpoint escape_all (quote : ascii) (s : string) : string :=
  match s with
  | EmptyString => ""
  | String c rest => escape_char quote c ++ escape_all quote rest
  end.

(** [repr] of a string: single quotes, unless the text has a single
    quote and no double quote. *)
Definition repr_str (s : string) : string :=
  let quote :=
    if mentions squote s && negb (mentions dquote s) then dquote else squote in
  String quote (escape_all quote s ++ String quote "").

Fixpoint py_repr (v : value) : string :=
  match v with
  | VNone => "None"
  | VBool true => "True"
  | VBool false => "False"
  | VInt n => string_of_Z n
  | VStr s => repr_str s
  | VList l => "[" ++ String.concat ", " (map py_repr l) ++ "]"
  | VDict d =>
      "{" ++ String.concat ", "
               (map (fun kv => match kv with
                               | (k, x) => repr_str k ++ ": " ++ py_repr x
                               end) d) ++ "}"
  end.

(** [str(v)], which is what [f"{v}"] inserts. *)
Definition py_str (v : value) : string :=
  match v with
  | VStr s => s
  | _ => py_repr v
  end.

(** [s.lower()] on ASCII text. *)
Definition lower_char (c : ascii) : ascii :=
  let n := nat_of_ascii c in
  if (65 <=? n)%nat && (n <=? 90)%nat then ascii_of_nat (n + 32) else c.

Fixpoint lower (s : string) : string :=
  match s with
  | EmptyString => ""
  | String c rest => String (lower_char c) (lower rest)
  end.

(** Structural equality of lists of strings: [ids == ['ALL']]. *)
Fixpoint str_list_eqb (a b : list string) : bool :=
  match a, b with
  | [], [] => true
  | x :: a', y :: b' => String.eqb x y && str_list_eqb a' b'
  | _, _ => false
  end.

(** [v in ids] for a list of strings [ids]: some element is [==] to
    [v]. A string equals only a string of the same text. *)
Definition in_strs (v : value) (ids : list string) : bool :=
  match v with
  | VStr s => existsb (String.eqb s) ids
  | _ => false
  end.

End Py.
Export Py.

(** ** Exceptions and the two monads *)

(** The exception classes the [except] clauses of the code tell apart:
    [requests.exceptions.RequestException] (with its subclasses:
    connection errors, timeouts, [HTTPError], ...) and everything else
    under [Exception]. *)
Inductive exn : Type :=
| RequestException (msg : string)
| AttributeError (msg : string)
| TypeError (msg : string)
| OtherException (class_name msg : string).

Definition is_request_exception (e : exn) : bool :=
  match e with
  | RequestException _ => true
  | _ => false
  end.

Inductive outcome (A : Type) : Type :=
| Returned (a : A)
| Raised (e : exn).
Arguments Returned {A} a.
Arguments Raised {A} e.

Definition bind_outcome {A B} (c : outcome A) (k : A -> outcome B) : outcome B :=
  match c with
  | Returned a => k a
  | Raised e => Raised e
  end.

(** [try: body / except Exception: handler]. *)
Definition try_except_all {A} (body : outcome A) (handler : exn -> outcome A)
  : outcome A :=
  match body with
  | Returned a => Returned a
  | Raised e => handler e
  end.

Declare Scope outcome_scope.
Delimit Scope outcome_scope with outcome.
Notation "x <- c ;; k" := (bind_outcome c (fun x => k))
  (at level 61, c at next level, right associativity) : outcome_scope.

(** [v.get(k, default)] on any value: only a dict has the method. *)
Definition py_get (v : value) (k : string) (default : value) : outcome value :=
  match v with
  | VDict d => Returned (dict_get d k default)
  | _ => Raised (AttributeError "object has no attribute 'get'")
  end.

(** [len(v)]. *)
Definition py_len (v : value) : outcome Z :=
  match v with
  | VStr s => Returned (Z.of_nat (String.length s))
  | VList l => Returned (Z.of_nat (List.length l))
  | VDict d => Returned (Z.of_nat (List.length d))
  | _ => Raised (TypeError "object has no len()")
  end.

(** The items a [for] loop or a comprehension visits. *)
Definition py_iter (v : value) : outcome (list value) :=
  match v with
  | VList l => Returned l
  | VStr s => Returned (map (fun c => VStr (String c "")) (list_ascii_of_string s))
  | VDict d => Returned (map (fun kv => VStr (fst kv)) d)
  | _ => Raised (TypeError "object is not iterable")
  end.

(** ** [card.py]: rendering a task as an Adaptive Card *)

Module Card.
#[local] Open Scope outcome_scope.

(** The keyword arguments of [template.render(...)]. *)
Record context : Type := mkContext {
  task_id : value;
  task_name : value;
  status : value;
  description : value;
  due_date : value;
  assigned_to : value;
  priority : value;
  photos : list value
}.

(** A loaded Jinja2 template: rendering yields text or raises. The
    template file [card.json.j2] is not part of the sources, so it is
    left arbitrary. *)
Definition template : Type := context -> outcome string.

(** [self.env.get_template(name)] is the field [env]. *)
Record AdaptiveCardGenerator : Type := mkGenerator {
  template_dir : string;
  env : string -> outcome template
}.

(** Lines 40-42: [photos = []; if attachments: photos = attachments[:3]].
    [attachments] defaults to [None]. *)
Definition select_photos (attachments : option (list value)) : list value :=
  match attachments with
  | None => []
  | Some l => if truthy (VList l) then firstn 3 l else []
  end.

(** Lines 45-54: the arguments of the render call, evaluated before it.
    Only [task.get('assigned_to', {}).get('name', ...)] can raise. *)
Definition render_kwargs (task : dict) (attachments : option (list value))
  : outcome context :=
  let photos := select_photos attachments in
  assignee <- py_get (dict_get task "assigned_to" (VDict [])) "name"
                     (VStr "Unassigned") ;;
  Returned {| task_id := dict_get task "id" VNone;
              task_name := dict_get task "title" (VStr "Untitled Task");
              status := dict_get task "status" (VStr "unknown");
              description := dict_get task "description" (VStr "");
              due_date := dict_get task "due_date" (VStr "");
              assigned_to := assignee;
              priority := dict_get task "priority" (VStr "normal");
              photos := photos |}.

Definition _get_fallback_card (task : dict) : value :=
  VDict
    [ ("$schema", VStr "http://adaptivecards.io/schemas/adaptive-card.json");
      ("type", VStr "AdaptiveCard");
      ("version", VStr "1.4");
      ("body",
        VList
          [ VDict [ ("type", VStr "TextBlock");
                    ("size", VStr "large");
                    ("weight", VStr "bolder");
                    ("text", dict_get task "title" (VStr "Task Update")) ];
            VDict [ ("type", VStr "TextBlock");
                    ("text",
                      VStr ("Status: "
                            ++ py_str (dict_get task "status" (VStr "unknown"))));
                    ("spacing", VStr "small") ];
            VDict [ ("type", VStr "TextBlock");
                    ("text", dict_get task "description" (VStr "No description"));
                    ("spacing", VStr "small") ] ]) ].

Section Generate.

(** [json.loads], left arbitrary. *)
Variable json_loads : string -> outcome value.

(** The body of the [try] of [generate_task_card] (lines 37-59; the
    log line cannot raise and is left out). *)
Definition primary_render (self : AdaptiveCardGenerator) (task : dict)
    (attachments : option (list value)) : outcome value :=
  tpl <- env self "card.json.j2" ;;
  ctx <- render_kwargs task attachments ;;
  card_json <- tpl ctx ;;
  card <- json_loads card_json ;;
  Returned card.

Definition generate_task_card (self : AdaptiveCardGenerator) (task : dict)
    (attachments : option (list value)) : outcome value :=
  try_except_all (primary_render self task attachments)
                 (fun _ => Returned (_get_fallback_card task)).

End Generate.

(** [generate_batch_message]: both counts are [len(cards)]. *)
Definition generate_batch_message (cards : list value) : value :=
  let n := string_of_Z (Z.of_nat (List.length cards)) in
  VDict
    [ ("@type", VStr "MessageCard");
      ("@context", VStr "https://schema.org/extensions");
      ("summary", VStr ("Fieldwire Task Updates - " ++ n ++ " new tasks"));
      ("themeColor", VStr "0078D4");
      ("sections",
        VList
          [ VDict [ ("activityTitle", VStr "Fieldwire Task Updates");
                    ("activitySubtitle", VStr (n ++ " new tasks from Fieldwire"));
                    ("text", VStr "Check the cards below for details") ] ]) ].

(** *** Reading a card back *)

Definition card_body (card : value) : list value :=
  match card with
  | VDict d => match dict_lookup d "body" with
               | Some (VList blocks) => blocks
               | _ => []
               end
  | _ => []
  end.

Definition block_field (block : value) (k : string) : option value :=
  match block with
  | VDict d => dict_lookup d k
  | _ => None
  end.

Definition is_text_block (block : value) : bool :=
  match block_field block "type" with
  | Some (VStr t) => String.eqb t "TextBlock"
  | _ => false
  end.

(** A non-empty piece of text. *)
Definition nonempty_text (v : value) : bool :=
  match v with
  | VStr s => negb (String.eqb s "")
  | _ => false
  end.


(** *** Concrete inputs used by the examples below *)

Definition no_template : AdaptiveCardGenerator :=
  {| template_dir := "templates";
     env := fun name => Raised (OtherException "TemplateNotFound" name) |}.

(** A template that prints the title it was given as a JSON string
    when the title is text, and fails otherwise. *)
Definition title_template : template :=
  fun ctx => match task_name ctx with
             | VStr s => Returned s
             | _ => Raised (OtherException "UndefinedError" "title")
             end.

Definition title_generator : AdaptiveCardGenerator :=
  {| template_dir := "templates"; env := fun _ => Returned title_template |}.

(** A loader that reads any non-empty text as one JSON string. *)
Definition text_loads (s : string) : outcome value :=
  if String.eqb s "" then Raised (OtherException "JSONDecodeError" "Expecting value")
  else Returned (VStr s).

Definition five_photos : list value :=
  [VStr "p1"; VStr "p2"; VStr "p3"; VStr "p4"; VStr "p5"].

End Card.

(** ** Stateful code: the machine and its monad *)

(** A computation that reads and updates a state and returns or raises.
    What was written to the state before an exception stays written. *)
Definition prog (S A : Type) : Type := S -> outcome A * S.

Definition ret {S A} (a : A) : prog S A := fun s => (Returned a, s).

Definition raise {S A} (e : exn) : prog S A := fun s => (Raised e, s).

Definition bind {S A B} (c : prog S A) (k : A -> prog S B) : prog S B :=
  fun s => match c s with
           | (Returned a, s') => k a s'
           | (Raised e, s') => (Raised e, s')
           end.

(** A pure fallible step inside stateful code. *)
Definition lift {S A} (c : outcome A) : prog S A := fun s => (c, s).

(** [try: body / except requests.exceptions.RequestException as e:
    handler]: any other exception passes through. *)
Definition try_except_request {S A} (body : prog S A) (handler : exn -> prog S A)
  : prog S A :=
  fun s => match body s with
           | (Returned a, s') => (Returned a, s')
           | (Raised e, s') =>
               if is_request_exception e then handler e s' else (Raised e, s')
           end.

(** [p] never changes the reading [f] of the state. *)
Definition keeps {S X A} (f : S -> X) (p : prog S A) : Prop :=
  forall s, f (snd (p s)) = f s.

Declare Scope prog_scope.
Delimit Scope prog_scope with prog.
Notation "x <- c ;; k" := (bind c (fun x => k))
  (at level 61, c at next level, right associativity) : prog_scope.
Notation "c ;;; k" := (bind c (fun _ => k))
  (at level 61, right associativity) : prog_scope.

Module Http.

Inductive verb : Type := GET | POST | HEAD.

(** What [requests.get/post/head] or [session.post] is called with. *)
Record request : Type := mkRequest {
  method : verb;
  url : string;
  headers : list (string * string);
  params : list (string * value);
  json : option value;
  timeout : option Z;
  allow_redirects : bool
}.

(** What the code reads of a response: [.status_code], [.text], what
    [.json()] does, and [.url] after redirects. *)
Record response : Type := mkResponse {
  status_code : Z;
  text : string;
  json_result : outcome value;
  final_url : string
}.

(** Everything outside the process. Times are seconds; exact rationals
    stand for the floats of [time.time()]. [transport k req] is what the k-th
    HTTP call of the run does when it sends [req] (after the retries the
    session adapter makes): a response, or an exception. [latency k] is
    how long that call takes, [oversleep i] by how much the i-th
    [time.sleep] overshoots, and [since_iso now minutes] is the text of
    [(datetime.utcnow() - timedelta(minutes=minutes)).isoformat()]. *)
Record environment : Type := mkEnvironment {
  transport : nat -> request -> outcome response;
  latency : nat -> Q;
  oversleep : nat -> Q;
  since_iso : Q -> Z -> outcome string
}.

(** The state a method of an object of class [O] runs in: the object,
    the clock, the HTTP calls made so far with the time each was
    issued, and the number of sleeps so far. *)
Record machine (O : Type) : Type := mkMachine {
  self : O;
  clock : Q;
  exchanges : list (Q * request);
  naps : nat
}.
Arguments mkMachine {O} self clock exchanges naps.
Arguments self {O} m.
Arguments clock {O} m.
Arguments exchanges {O} m.
Arguments naps {O} m.

(** A 4xx or 5xx status. *)
Definition error_status (r : response) : bool :=
  (400 <=? status_code r)%Z && (status_code r <? 600)%Z.

Section Primitives.

Context {O : Type}.
Variable world : environment.

Definition get_self : prog (machine O) O :=
  fun m => (Returned (self m), m).

Definition update_self (f : O -> O) : prog (machine O) unit :=
  fun m => (Returned tt, mkMachine (f (self m)) (clock m) (exchanges m) (naps m)).

(** [time.time()]. *)
Definition time_time : prog (machine O) Q :=
  fun m => (Returned (clock m), m).

(** [time.sleep(d)]: at least [d] seconds pass. *)
Definition time_sleep (d : Q) : prog (machine O) unit :=
  fun m => (Returned tt,
            mkMachine (self m) (clock m + d + oversleep world (naps m))%Q
                      (exchanges m) (S (naps m))).

(** One HTTP call: it is recorded with the time it was issued, takes
    its latency, and returns or raises as the transport decides. *)
Definition http_call (req : request) : prog (machine O) response :=
  fun m =>
    let k := List.length (exchanges m) in
    (transport world k req,
     mkMachine (self m) (clock m + latency world k)%Q
               (exchanges m ++ [(clock m, req)]) (naps m)).

(** [response.raise_for_status()]: [HTTPError], a [RequestException],
    on a 4xx or 5xx status. *)
Definition raise_for_status (r : response) : prog (machine O) unit :=
  if error_status r then raise (RequestException "HTTPError") else ret tt.

End Primitives.

(** The number the next HTTP call will have. *)
Definition next_call {O} (m : machine O) : nat := List.length (exchanges m).

(** The requests of a run, in the order they were issued. *)
Definition issued {O} (m : machine O) : list request := map snd (exchanges m).

End Http.

(** ** [auth.py]: the JWT exchange *)

Module Auth.
Import Http.
#[local] Open Scope prog_scope.

Record FieldwireAuth : Type := mkAuth {
  api_token : string;
  region : string;
  base_url : string;
  access_token : value;
  expires_at : value
}.

Definition us_url : string := "https://client-api.super.fieldwire.com".

Definition BASE_URLS : list (string * string) :=
  [ ("us", us_url); ("eu", "https://client-api.fieldwire.eu") ].

Fixpoint urls_lookup (table : list (string * string)) (k : string)
  : option string :=
  match table with
  | [] => None
  | (k', u) :: rest => if String.eqb k' k then Some u else urls_lookup rest k
  end.

(** [BASE_URLS.get(region.lower(), BASE_URLS["us"])]; no token yet. *)
Definition __init__ (api_token region : string) : FieldwireAuth :=
  {| api_token := api_token;
     region := region;
     base_url :=
       match urls_lookup BASE_URLS (lower region) with
       | Some u => u
       | None => us_url
       end;
     access_token := VNone;
     expires_at := VNone |}.

Definition set_access_token (v : value) (a : FieldwireAuth) : FieldwireAuth :=
  mkAuth (api_token a) (region a) (base_url a) v (expires_at a).

Definition set_expires_at (v : value) (a : FieldwireAuth) : FieldwireAuth :=
  mkAuth (api_token a) (region a) (base_url a) (access_token a) v.

(** The request of [get_jwt_token]. *)
Definition jwt_request (a : FieldwireAuth) : request :=
  {| method := POST;
     url := base_url a ++ "/api_keys/jwt";
     headers := [ ("accept", "application/json");
                  ("content-type", "application/json") ];
     params := [];
     json := Some (VDict [("api_token", VStr (api_token a))]);
     timeout := None;
     allow_redirects := true |}.

Section Methods.

Variable world : environment.

(** The handler logs and re-raises. *)
Definition get_jwt_token : prog (machine FieldwireAuth) value :=
  try_except_request
    (a <- get_self ;;
     response <- http_call world (jwt_request a) ;;
     raise_for_status response ;;;
     data <- lift (json_result response) ;;
     token <- lift (py_get data "access_token" VNone) ;;
     update_self (set_access_token token) ;;;
     expiry <- lift (py_get data "expires_at" VNone) ;;
     update_self (set_expires_at expiry) ;;;
     ret data)
    (fun e => raise e).

Definition get_auth_headers : prog (machine FieldwireAuth) (list (string * string)) :=
  a <- get_self ;;
  (if negb (truthy (access_token a))
   then (_ <- get_jwt_token ;; ret tt)
   else ret tt) ;;;
  a <- get_self ;;
  ret [ ("Authorization", "Bearer " ++ py_str (access_token a));
        ("accept", "application/json") ].

End Methods.

End Auth.

(** ** [fetch.py]: reading projects, tasks and attachments *)

Module Fetch.
Import Http.
#[local] Open Scope prog_scope.

(** The fetch client. Its field [auth] is a reference to the auth
    object: that object is the [self] of the machine the methods below
    run in, so they could read its current token. [headers] is text
    built once, in [__init__]. *)
Record FieldwireFetch : Type := mkFetch {
  base_url : string;
  headers : list (string * string)
}.

Definition __init__ (auth : Auth.FieldwireAuth) : FieldwireFetch :=
  {| base_url := "https://api." ++ Auth.region auth ++ ".fieldwire.io/api";
     headers := [ ("Authorization", "Bearer " ++ py_str (Auth.access_token auth));
                  ("Content-Type", "application/json") ] |}.

(** [requests.get(url, headers=..., params=...)]. *)
Definition get_request (url : string) (hs : list (string * string))
    (ps : list (string * value)) : request :=
  {| method := GET; url := url; Http.headers := hs; params := ps;
     json := None; timeout := None; allow_redirects := true |}.

(** [requests.head(url, headers=..., allow_redirects=True)]. *)
Definition head_request (url : string) (hs : list (string * string)) : request :=
  {| method := HEAD; url := url; Http.headers := hs; params := [];
     json := None; timeout := None; allow_redirects := true |}.

(** [[p for p in projects if p.get('id') in project_ids]]. *)
Fixpoint keep_ids (projects : list value) (project_ids : list string)
  : outcome (list value) :=
  match projects with
  | [] => Returned []
  | p :: rest =>
      bind_outcome (py_get p "id" VNone) (fun id =>
      bind_outcome (keep_ids rest project_ids) (fun kept =>
      Returned (if in_strs id project_ids then p :: kept else kept)))
  end.

(** [project_ids and project_ids != ['ALL']]. *)
Definition filter_wanted (project_ids : option (list string)) : option (list string) :=
  match project_ids with
  | None => None
  | Some ids =>
      match ids with
      | [] => None
      | _ => if negb (str_list_eqb ids ["ALL"]) then Some ids else None
      end
  end.

Section Methods.

Variable world : environment.
Variable fetch : FieldwireFetch.

Definition projects_request : request :=
  get_request (base_url fetch ++ "/projects") (headers fetch) [].

Definition get_projects (project_ids : option (list string))
  : prog (machine Auth.FieldwireAuth) value :=
  try_except_request
    (response <- http_call world projects_request ;;
     raise_for_status response ;;;
     body <- lift (json_result response) ;;
     projects <- lift (py_get body "projects" (VList [])) ;;
     projects <- match filter_wanted project_ids with
                 | Some ids =>
                     items <- lift (py_iter projects) ;;
                     kept <- lift (keep_ids items ids) ;;
                     ret (VList kept)
                 | None => ret projects
                 end ;;
     _ <- lift (py_len projects) ;;
     ret projects)
    (fun _ => ret (VList [])).

Definition tasks_request (project_id : value) (since_time : string) : request :=
  get_request (base_url fetch ++ "/projects/" ++ py_str project_id ++ "/tasks")
              (headers fetch)
              [ ("updated_at_min", VStr since_time);
                ("include_deleted", VBool false) ].

(** The caller passes [project.get('id')], whatever value that is. *)
Definition get_tasks (project_id : value) (minutes_back : Z)
  : prog (machine Auth.FieldwireAuth) value :=
  try_except_request
    (now <- time_time ;;
     since_time <- lift (since_iso world now minutes_back) ;;
     response <- http_call world (tasks_request project_id since_time) ;;
     raise_for_status response ;;;
     body <- lift (json_result response) ;;
     tasks <- lift (py_get body "tasks" (VList [])) ;;
     _ <- lift (py_len tasks) ;;
     ret tasks)
    (fun _ => ret (VList [])).

Definition attachments_request (project_id task_id : value) : request :=
  get_request (base_url fetch ++ "/projects/" ++ py_str project_id
               ++ "/tasks/" ++ py_str task_id ++ "/attachments")
              (headers fetch) [].

Definition get_task_attachments (project_id task_id : value)
  : prog (machine Auth.FieldwireAuth) value :=
  try_except_request
    (response <- http_call world (attachments_request project_id task_id) ;;
     raise_for_status response ;;;
     body <- lift (json_result response) ;;
     attachments <- lift (py_get body "attachments" (VList [])) ;;
     _ <- lift (py_len attachments) ;;
     ret attachments)
    (fun _ => ret (VList [])).

Definition media_request (attachment_id project_id : value) : request :=
  head_request (base_url fetch ++ "/projects/" ++ py_str project_id
                ++ "/attachments/" ++ py_str attachment_id ++ "/media")
               (headers fetch).

Definition get_attachment_url (attachment_id project_id : value)
  : prog (machine Auth.FieldwireAuth) (option string) :=
  try_except_request
    (response <- http_call world (media_request attachment_id project_id) ;;
     raise_for_status response ;;;
     ret (Some (final_url response)))
    (fun _ => ret None).

End Methods.

(** *** Reading a run of the fetch client *)

Definition is_dict (v : value) : bool :=
  match v with
  | VDict _ => true
  | _ => false
  end.

(** [p.get('id')] of a project dict. *)
Definition id_of (p : value) : value :=
  match p with
  | VDict d => dict_get d "id" VNone
  | _ => VNone
  end.

(** A call of one of the four methods of the client. *)
Inductive operation : Type :=
| GetProjects (project_ids : option (list string))
| GetTasks (project_id : value) (minutes_back : Z)
| GetTaskAttachments (project_id task_id : value)
| GetAttachmentUrl (attachment_id project_id : value).

(** The request a call issues, if it gets as far as issuing one. *)
Definition request_of (world : environment) (fetch : FieldwireFetch)
    (m : machine Auth.FieldwireAuth) (op : operation) : option request :=
  match op with
  | GetProjects _ => Some (projects_request fetch)
  | GetTasks pid minutes =>
      match since_iso world (clock m) minutes with
      | Returned since_time => Some (tasks_request fetch pid since_time)
      | Raised _ => None
      end
  | GetTaskAttachments pid tid => Some (attachments_request fetch pid tid)
  | GetAttachmentUrl aid pid => Some (media_request fetch aid pid)
  end.

(** A request that carries the header text of the client and is not
    the POST of the token exchange. *)
Definition from_client (fetch : FieldwireFetch) (req : request) : Prop :=
  Http.headers req = headers fetch /\ method req <> POST.

(** The machine after a call, whatever it returned or raised. *)
Definition after (world : environment) (fetch : FieldwireFetch)
    (m : machine Auth.FieldwireAuth) (op : operation) : machine Auth.FieldwireAuth :=
  match op with
  | GetProjects ids => snd (get_projects world fetch ids m)
  | GetTasks pid minutes => snd (get_tasks world fetch pid minutes m)
  | GetTaskAttachments pid tid => snd (get_task_attachments world fetch pid tid m)
  | GetAttachmentUrl aid pid => snd (get_attachment_url world fetch aid pid m)
  end.

(** The machine after a sequence of calls. *)
Definition after_all (world : environment) (fetch : FieldwireFetch)
    (m : machine Auth.FieldwireAuth) (ops : list operation)
  : machine Auth.FieldwireAuth :=
  fold_left (after world fetch) ops m.

End Fetch.

(** ** [send.py]: delivering cards to the webhook *)

Module Send.
Import Http.
#[local] Open Scope prog_scope.

(** [session] is the retrying transport; it is part of the
    environment. Times are seconds. *)
Record TeamsWebhookSender : Type := mkSender {
  webhook_url : string;
  rate_limit : Q;
  last_send_time : Q
}.

Definition default_rate_limit : Q := (25 # 100)%Q.

Definition __init__ (webhook_url : string) (rate_limit : Q) : TeamsWebhookSender :=
  {| webhook_url := webhook_url; rate_limit := rate_limit; last_send_time := 0%Q |}.

Definition set_last_send_time (t : Q) (s : TeamsWebhookSender) : TeamsWebhookSender :=
  mkSender (webhook_url s) (rate_limit s) t.

(** The envelope around a card. *)
Definition card_payload (card : value) : value :=
  VDict
    [ ("type", VStr "message");
      ("attachments",
        VList
          [ VDict [ ("contentType", VStr "application/vnd.microsoft.card.adaptive");
                    ("contentUrl", VNone);
                    ("content", card) ] ]) ].

(** [self.session.post(self.webhook_url, json=payload, timeout=10)]. *)
Definition post_request (target : string) (payload : value) : request :=
  {| method := POST; url := target; headers := []; params := [];
     json := Some payload; timeout := Some 10%Z; allow_redirects := true |}.

Definition test_payload : value :=
  VDict [ ("type", VStr "message");
          ("text", VStr "Fieldwire to Teams integration - Connection test") ].

(** The [results] dict of [send_batch]. *)
Record tally : Type := mkTally {
  success : Z;
  failed : Z
}.

Section Methods.

Variable world : environment.

Definition send_card (card : value) : prog (machine TeamsWebhookSender) bool :=
  try_except_request
    (now <- time_time ;;
     s <- get_self ;;
     let elapsed := (now - last_send_time s)%Q in
     (if Qlt_le_dec elapsed (rate_limit s)
      then time_sleep world (rate_limit s - elapsed)%Q
      else ret tt) ;;;
     response <- http_call world (post_request (webhook_url s) (card_payload card)) ;;
     stamp <- time_time ;;
     update_self (set_last_send_time stamp) ;;;
     if (status_code response =? 200)%Z then ret true
     else if (status_code response =? 429)%Z then ret false
     else if (status_code response =? 401)%Z then ret false
     else ret false)
    (fun _ => ret false).

(** The [for] loop of [send_batch], with the counts so far. *)
Fixpoint send_each (cards : list value) (results : tally)
  : prog (machine TeamsWebhookSender) tally :=
  match cards with
  | [] => ret results
  | card :: rest =>
      ok <- send_card card ;;
      send_each rest
        (if ok then mkTally (success results + 1) (failed results)
         else mkTally (success results) (failed results + 1))
  end.

Definition send_batch (cards : list value) : prog (machine TeamsWebhookSender) tally :=
  send_each cards (mkTally 0 0).

Definition test_webhook : prog (machine TeamsWebhookSender) bool :=
  try_except_request
    (s <- get_self ;;
     response <- http_call world (post_request (webhook_url s) test_payload) ;;
     if (status_code response =? 200)%Z then ret true else ret false)
    (fun _ => ret false).

End Methods.

(** *** Reading a run of the sender *)

(** Whether the k-th HTTP call, sending [req], comes back with status
    200. *)
Definition delivered (world : environment) (k : nat) (req : request) : bool :=
  match transport world k req with
  | Returned r => (status_code r =? 200)%Z
  | Raised _ => false
  end.

(** The verdicts of sending [cards] one after the other to [target],
    the first of them being HTTP call number [k]. *)
Fixpoint verdicts (world : environment) (target : string) (k : nat)
    (cards : list value) : list bool :=
  match cards with
  | [] => []
  | card :: rest =>
      delivered world k (post_request target (card_payload card))
      :: verdicts world target (S k) rest
  end.

Definition count_of (b : bool) (l : list bool) : Z :=
  Z.of_nat (List.length (filter (Bool.eqb b) l)).

(** No call of the batch ends in an exception that is not a
    [RequestException]: every send returns, with true or with false. *)
Fixpoint sends_return (world : environment) (target : string) (k : nat)
    (cards : list value) : Prop :=
  match cards with
  | [] => True
  | card :: rest =>
      (forall e, transport world k (post_request target (card_payload card)) = Raised e ->
                 is_request_exception e = true)
      /\ sends_return world target (S k) rest
  end.

(** Time does not run backwards: calls and sleeps take no negative
    time. *)
Definition time_advances (world : environment) : Prop :=
  (forall k, (0 <= latency world k)%Q) /\ (forall i, (0 <= oversleep world i)%Q).

(** The request [send_card] posts. *)
Definition card_request (s : TeamsWebhookSender) (card : value) : request :=
  post_request (webhook_url s) (card_payload card).

(** The time at which [send_card], entered on machine [m], issues its
    POST: at once, or after the pacing sleep. *)
Definition issue_time (world : environment) (m : machine TeamsWebhookSender) : Q :=
  let elapsed := (clock m - last_send_time (self m))%Q in
  if Qlt_le_dec elapsed (rate_limit (self m))
  then (clock m + (rate_limit (self m) - elapsed) + oversleep world (naps m))%Q
  else clock m.

(** The caller lets [d] seconds pass between two calls. *)
Definition pause {O} (d : Q) (m : machine O) : machine O :=
  mkMachine (self m) (clock m + d)%Q (exchanges m) (naps m).

End Send.

(** ** Concrete environments and machines used by the examples *)

Module Samples.
Import Http.

Definition boot {O : Type} (o : O) (t : Q) : machine O := mkMachine o t [] 0.

Definition json_response (code : Z) (body : value) : response :=
  {| status_code := code; text := py_repr body;
     json_result := Returned body; final_url := "https://cdn.example/media" |}.

Definition plain_response (code : Z) : response :=
  {| status_code := code; text := "";
     json_result := Raised (RequestException "JSONDecodeError");
     final_url := "" |}.

(** A webhook that accepts the first card, throttles the second, drops
    the connection on the third, rejects the fourth and accepts from
    then on. Each call takes a hundredth of a second. *)
Definition moody_webhook : environment :=
  {| transport := fun k _ =>
       match k with
       | 0 => Returned (plain_response 200)
       | 1 => Returned (plain_response 429)
       | 2 => Raised (RequestException "ConnectionError")
       | 3 => Returned (plain_response 401)
       | _ => Returned (plain_response 200)
       end;
     latency := fun _ => (1 # 100)%Q;
     oversleep := fun _ => 0%Q;
     since_iso := fun _ _ => Returned "2024-05-01T11:00:00" |}.

Definition project (id name : string) : value :=
  VDict [("id", VStr id); ("name", VStr name)].

Definition three_projects : list value :=
  [project "p1" "Tower"; project "p2" "Bridge"; project "p3" "Depot"].

(** A Fieldwire API that answers every call. *)
Definition fieldwire_api : environment :=
  {| transport := fun _ req =>
       match method req with
       | POST =>
           Returned (json_response 201
             (VDict [ ("access_token", VStr "jwt-1");
                      ("expires_at", VStr "2024-05-01T13:00:00Z") ]))
       | _ =>
           Returned (json_response 200
             (VDict [ ("projects", VList three_projects);
                      ("tasks", VList [VDict [("id", VStr "t1")]]);
                      ("attachments", VList [VDict [("id", VStr "a1")]]) ]))
       end;
     latency := fun _ => (1 # 10)%Q;
     oversleep := fun _ => 0%Q;
     since_iso := fun _ _ => Returned "2024-05-01T11:00:00" |}.

(** A Fieldwire API that cannot be reached. *)
Definition unreachable_api : environment :=
  {| transport := fun _ _ => Raised (RequestException "ConnectionError");
     latency := fun _ => 10%Q;
     oversleep := fun _ => 0%Q;
     since_iso := fun _ _ => Returned "2024-05-01T11:00:00" |}.

Definition fresh_auth : Auth.FieldwireAuth := Auth.__init__ "secret" "us".

(** The client built right after a fresh auth object. *)
Definition sample_fetch : Fetch.FieldwireFetch := Fetch.__init__ fresh_auth.

(** An auth object holding a token whose expiry is long past. *)
Definition stale_auth : Auth.FieldwireAuth :=
  Auth.mkAuth "secret" "us" "https://client-api.super.fieldwire.com"
              (VStr "jwt-0") (VStr "1999-01-01T00:00:00Z").

Definition sender : Send.TeamsWebhookSender :=
  Send.__init__ "https://teams.example/hook" Send.default_rate_limit.

Definition card_a : value := Card._get_fallback_card [("title", VStr "A")].
Definition card_b : value := Card._get_fallback_card [("title", VStr "B")].
Definition card_c : value := Card._get_fallback_card [("title", VStr "C")].
Definition card_d : value := Card._get_fallback_card [("title", VStr "D")].

(** A webhook whose first call ends in a connection error. *)
Definition flaky_webhook : environment :=
  {| transport := fun k _ =>
       match k with
       | 0 => Raised (RequestException "ConnectionError")
       | _ => Returned (plain_response 200)
       end;
     latency := fun _ => (1 # 100)%Q;
     oversleep := fun _ => 0%Q;
     since_iso := fun _ _ => Returned "2024-05-01T11:00:00" |}.

Definition four_cards : list value := [card_a; card_b; card_c; card_d].

(** Two calls of [send_card] one right after the other: the machine
    on entry of the first, and on entry of the second. *)
Definition first_entry : Http.machine Send.TeamsWebhookSender :=
  boot sender 1700000000%Q.

Definition second_entry : Http.machine Send.TeamsWebhookSender :=
  snd (Send.send_card moody_webhook card_a first_entry).

(** The same with the webhook whose first call fails. *)
Definition second_entry_after_failure : Http.machine Send.TeamsWebhookSender :=
  snd (Send.send_card flaky_webhook card_a first_entry).

End Samples.

(** ** [card.py] read without its type hints *)

(** [generate_task_card] as Python runs it on whatever values it is
    given: the caller in [fieldwire_to_teams.py] passes the items of
    the task listing and what [get_task_attachments] returned. *)
Module CardAny.
#[local] Open Scope outcome_scope.

(** The keyword arguments of [template.render(...)]; [photos] is
    whatever the slice [attachments[:3]] is. *)
Record kwargs : Type := mkKwargs {
  task_id : value;
  task_name : value;
  status : value;
  description : value;
  due_date : value;
  assigned_to : value;
  priority : value;
  photos : value
}.

Definition template : Type := kwargs -> outcome string.

(** [self.env.get_template(name)]. *)
Definition jinja : Type := string -> outcome template.

(** [v[:3]]: a list or a text can be sliced (text is ASCII here);
    nothing else the model has can (a dict raises [TypeError], or
    [KeyError] from Python 3.12 on). *)
Definition slice3 (v : value) : outcome value :=
  match v with
  | VList l => Returned (VList (firstn 3 l))
  | VStr s => Returned (VStr (substring 0 3 s))
  | _ => Raised (TypeError "object is not subscriptable")
  end.

(** Lines 40-42. *)
Definition select_photos (attachments : value) : outcome value :=
  if truthy attachments then slice3 attachments else Returned (VList []).

(** Lines 45-54. *)
Definition render_kwargs (task : value) (photos : value) : outcome kwargs :=
  id <- py_get task "id" VNone ;;
  title <- py_get task "title" (VStr "Untitled Task") ;;
  status <- py_get task "status" (VStr "unknown") ;;
  description <- py_get task "description" (VStr "") ;;
  due_date <- py_get task "due_date" (VStr "") ;;
  assigned <- py_get task "assigned_to" (VDict []) ;;
  assignee <- py_get assigned "name" (VStr "Unassigned") ;;
  priority <- py_get task "priority" (VStr "normal") ;;
  Returned {| task_id := id; task_name := title; status := status;
              description := description; due_date := due_date;
              assigned_to := assignee; priority := priority;
              photos := photos |}.

(** Lines 74-96: the three [task.get] calls, then the literal. *)
Definition _get_fallback_card (task : value) : outcome value :=
  title <- py_get task "title" (VStr "Task Update") ;;
  status <- py_get task "status" (VStr "unknown") ;;
  description <- py_get task "description" (VStr "No description") ;;
  Returned
    (VDict
       [ ("$schema", VStr "http://adaptivecards.io/schemas/adaptive-card.json");
         ("type", VStr "AdaptiveCard");
         ("version", VStr "1.4");
         ("body",
           VList
             [ VDict [ ("type", VStr "TextBlock");
                       ("size", VStr "large");
                       ("weight", VStr "bolder");
                       ("text", title) ];
               VDict [ ("type", VStr "TextBlock");
                       ("text", VStr ("Status: " ++ py_str status));
                       ("spacing", VStr "small") ];
               VDict [ ("type", VStr "TextBlock");
                       ("text", description);
                       ("spacing", VStr "small") ] ]) ]).

Section Generate.

Variable json_loads : string -> outcome value.
Variable env : jinja.

(** Lines 37-59. *)
Definition primary_render (task attachments : value) : outcome value :=
  tpl <- env "card.json.j2" ;;
  photos <- select_photos attachments ;;
  args <- render_kwargs task photos ;;
  card_json <- tpl args ;;
  card <- json_loads card_json ;;
  Returned card.

(** Lines 36-63: the handler calls [_get_fallback_card], which is
    outside the [try]. *)
Definition generate_task_card (task attachments : value) : outcome value :=
  match primary_render task attachments with
  | Returned card => Returned card
  | Raised _ => _get_fallback_card task
  end.

End Generate.

(** The typed reading of a template: its [photos] are a list. *)
Definition typed_template (tpl : template) : Card.template :=
  fun ctx =>
    tpl {| task_id := Card.task_id ctx; task_name := Card.task_name ctx;
           status := Card.status ctx; description := Card.description ctx;
           due_date := Card.due_date ctx; assigned_to := Card.assigned_to ctx;
           priority := Card.priority ctx; photos := VList (Card.photos ctx) |}.

Definition typed_generator (env : jinja) : Card.AdaptiveCardGenerator :=
  {| Card.template_dir := "templates";
     Card.env := fun name => bind_outcome (env name)
                               (fun tpl => Returned (typed_template tpl)) |}.

(** [attachments: List[Dict] = None] as a value. *)
Definition attachments_value (attachments : option (list value)) : value :=
  match attachments with
  | None => VNone
  | Some l => VList l
  end.

End CardAny.

(** ** [fieldwire_to_teams.py]: the integration *)

Module Orchestrator.
Import Http.

(** [s.split(sep)] for a one-character separator: every occurrence
    cuts, and empty pieces are kept. *)
Fixpoint split_on (sep : ascii) (s : string) : list string :=
  match s with
  | EmptyString => [""]
  | String c rest =>
      if Ascii.eqb c sep then "" :: split_on sep rest
      else match split_on sep rest with
           | [] => [String c ""]
           | piece :: pieces => String c piece :: pieces
           end
  end.

Definition comma : ascii := ascii_of_nat 44.

(** The fields of the integration object. [fetch] and [card_gen] are
    never written after [__init__]; [auth] and [sender] are the two
    objects whose state can change. *)
Record FieldwireToTeamsIntegration : Type := mkIntegration {
  api_token : string;
  region : string;
  project_ids : list string;
  webhook_url : string;
  poll_minutes : Z;
  auth : Auth.FieldwireAuth;
  fetch : Fetch.FieldwireFetch;
  card_gen : CardAny.jinja;
  sender : Send.TeamsWebhookSender
}.

Definition set_auth (a : Auth.FieldwireAuth) (it : FieldwireToTeamsIntegration)
  : FieldwireToTeamsIntegration :=
  mkIntegration (api_token it) (region it) (project_ids it) (webhook_url it)
                (poll_minutes it) a (fetch it) (card_gen it) (sender it).

Definition set_sender (s : Send.TeamsWebhookSender) (it : FieldwireToTeamsIntegration)
  : FieldwireToTeamsIntegration :=
  mkIntegration (api_token it) (region it) (project_ids it) (webhook_url it)
                (poll_minutes it) (auth it) (fetch it) (card_gen it) s.

Section Init.

(** [os.getenv] after [load_dotenv()], [int] on text, and the
    template directory, all given from outside. *)
Variable getenv : string -> option string.
Variable int_of : string -> outcome Z.
Variable templates : CardAny.jinja.

(** [os.getenv(name, default)]. *)
Definition getenv_or (name default : string) : string :=
  match getenv name with
  | Some v => v
  | None => default
  end.

(** [not s] for [s] that is [None] or text. *)
Definition missing (s : option string) : bool :=
  match s with
  | None => true
  | Some v => String.eqb v ""
  end.

Definition __init__ : outcome FieldwireToTeamsIntegration :=
  let api_token := getenv "FIELDWIRE_API_TOKEN" in
  let region := getenv_or "FIELDWIRE_REGION" "us" in
  let project_ids := split_on comma (getenv_or "FIELDWIRE_PROJECT_IDS" "ALL") in
  let webhook_url := getenv "TEAMS_WEBHOOK_URL" in
  bind_outcome (int_of (getenv_or "POLL_MINUTES" "60")) (fun poll_minutes =>
  if missing api_token || missing webhook_url then
    Raised (OtherException "ValueError"
              "Missing required env vars: FIELDWIRE_API_TOKEN or TEAMS_WEBHOOK_URL")
  else
    let api_token := match api_token with Some v => v | None => "" end in
    let webhook_url := match webhook_url with Some v => v | None => "" end in
    let auth := Auth.__init__ api_token region in
    Returned {| api_token := api_token;
                region := region;
                project_ids := project_ids;
                webhook_url := webhook_url;
                poll_minutes := poll_minutes;
                auth := auth;
                fetch := Fetch.__init__ auth;
                card_gen := templates;
                sender := Send.__init__ webhook_url Send.default_rate_limit |}).

End Init.

#[local] Open Scope prog_scope.

(** [try: body / except Exception: handler] on stateful code. *)
Definition try_except_any {S A} (body : prog S A) (handler : exn -> prog S A)
  : prog S A :=
  fun s => match body s with
           | (Returned a, s') => (Returned a, s')
           | (Raised e, s') => handler e s'
           end.

(** The machine as a method of [self.auth] sees it, and the machine of
    the integration once that method is done. *)
Definition auth_view (m : machine FieldwireToTeamsIntegration)
  : machine Auth.FieldwireAuth :=
  mkMachine (auth (self m)) (clock m) (exchanges m) (naps m).

Definition auth_back (m : machine FieldwireToTeamsIntegration)
    (done : machine Auth.FieldwireAuth) : machine FieldwireToTeamsIntegration :=
  mkMachine (set_auth (self done) (self m)) (clock done) (exchanges done) (naps done).

(** The same for [self.sender]. *)
Definition sender_view (m : machine FieldwireToTeamsIntegration)
  : machine Send.TeamsWebhookSender :=
  mkMachine (sender (self m)) (clock m) (exchanges m) (naps m).

Definition sender_back (m : machine FieldwireToTeamsIntegration)
    (done : machine Send.TeamsWebhookSender) : machine FieldwireToTeamsIntegration :=
  mkMachine (set_sender (self done) (self m)) (clock done) (exchanges done)
            (naps done).

(** A method of [self.auth] (or of [self.fetch], which points to the
    same auth object) called from a method of the integration. *)
Definition on_auth {A} (p : prog (machine Auth.FieldwireAuth) A)
  : prog (machine FieldwireToTeamsIntegration) A :=
  fun m => (fst (p (auth_view m)), auth_back m (snd (p (auth_view m)))).

(** A method of [self.sender] called from a method of the integration. *)
Definition on_sender {A} (p : prog (machine Send.TeamsWebhookSender) A)
  : prog (machine FieldwireToTeamsIntegration) A :=
  fun m => (fst (p (sender_view m)), sender_back m (snd (p (sender_view m)))).

Section Cycle.

Variable world : environment.
Variable json_loads : string -> outcome value.

(** The inner loop of [process_tasks] (lines 56-61), with the cards
    collected so far. *)
Fixpoint each_task (it : FieldwireToTeamsIntegration) (project : value)
    (tasks : list value) (all_cards : list value)
  : prog (machine FieldwireToTeamsIntegration) (list value) :=
  match tasks with
  | [] => ret all_cards
  | task :: rest =>
      project_id <- lift (py_get project "id" VNone) ;;
      task_id <- lift (py_get task "id" VNone) ;;
      attachments <- on_auth (Fetch.get_task_attachments world (fetch it)
                                project_id task_id) ;;
      card <- lift (CardAny.generate_task_card json_loads (card_gen it)
                      task attachments) ;;
      each_task it project rest (all_cards ++ [card])
  end.

(** The outer loop (lines 54-61). *)
Fixpoint each_project (it : FieldwireToTeamsIntegration) (projects : list value)
    (all_cards : list value)
  : prog (machine FieldwireToTeamsIntegration) (list value) :=
  match projects with
  | [] => ret all_cards
  | project :: rest =>
      project_id <- lift (py_get project "id" VNone) ;;
      tasks <- on_auth (Fetch.get_tasks world (fetch it) project_id
                          (poll_minutes it)) ;;
      items <- lift (py_iter tasks) ;;
      all_cards <- each_task it project items all_cards ;;
      each_project it rest all_cards
  end.

(** Lines 63-68: send what was collected, if anything. *)
Definition deliver (all_cards : list value)
  : prog (machine FieldwireToTeamsIntegration) unit :=
  match all_cards with
  | [] => ret tt
  | _ => _ <- on_sender (Send.send_batch world all_cards) ;; ret tt
  end.

(** The body of the [try] of [process_tasks] (lines 46-68). *)
Definition cycle : prog (machine FieldwireToTeamsIntegration) unit :=
  it <- get_self ;;
  projects <- on_auth (Fetch.get_projects world (fetch it) (Some (project_ids it))) ;;
  if negb (truthy projects) then ret tt
  else
    items <- lift (py_iter projects) ;;
    all_cards <- each_project it items [] ;;
    deliver all_cards.

(** Any exception of the cycle is logged and dropped. *)
Definition process_tasks : prog (machine FieldwireToTeamsIntegration) unit :=
  try_except_any cycle (fun _ => ret tt).

(** [test_webhook] of the integration: the verdict is only logged. *)
Definition test_webhook : prog (machine FieldwireToTeamsIntegration) unit :=
  _ <- on_sender (Send.test_webhook world) ;; ret tt.

End Cycle.

(** *** Reading a cycle *)

(** A POST of a card to the webhook of sender [s]. *)
Definition webhook_post (s : Send.TeamsWebhookSender) (req : request) : Prop :=
  exists card, req = Send.card_request s card.

(** A step of the fetch phase: the integration object is as it was,
    and whatever was issued came from the fetch client. *)
Definition fetch_step (it : FieldwireToTeamsIntegration)
    (m m' : machine FieldwireToTeamsIntegration) : Prop :=
  self m' = self m
  /\ exists gets, issued m' = (issued m ++ gets)%list
                  /\ Forall (Fetch.from_client (fetch it)) gets.

(** [p] only ever makes steps of the fetch phase. *)
Definition fetches_only {A} (it : FieldwireToTeamsIntegration)
    (p : prog (machine FieldwireToTeamsIntegration) A) : Prop :=
  forall m, fetch_step it m (snd (p m)).

End Orchestrator.

(** ** More environments for the examples *)

Module MoreSamples.
Import Http.

(** A server that answers every call with status 200 and the same
    JSON body. *)
Definition answering (body : value) : environment :=
  {| transport := fun _ _ => Returned (Samples.json_response 200 body);
     latency := fun _ => (1 # 10)%Q;
     oversleep := fun _ => 0%Q;
     since_iso := fun _ _ => Returned "2024-05-01T11:00:00" |}.

(** An answer to the token exchange without a token. *)
Definition tokenless_api : environment :=
  answering (VDict [("message", VStr "ok")]).

(** A maintenance page served as a JSON list. *)
Definition list_body_api : environment :=
  answering (VList [VStr "maintenance"]).

Definition empty_object_api : environment := answering (VDict []).

(** A project list with a stray string among the projects. *)
Definition stray_entry_api : environment :=
  answering (VDict [("projects",
                     VList [Samples.project "p1" "Tower"; VStr "oops"])]).

Definition auth_machine : machine Auth.FieldwireAuth :=
  Samples.boot Samples.fresh_auth 1700000000%Q.

(** A webhook client whose second call dies of an exception that is
    not a [RequestException]; the other calls are accepted. *)
Definition crashing_webhook : environment :=
  {| transport := fun k _ =>
       match k with
       | 1 => Raised (TypeError "Object is not JSON serializable")
       | _ => Returned (Samples.plain_response 200)
       end;
     latency := fun _ => (1 # 100)%Q;
     oversleep := fun _ => 0%Q;
     since_iso := fun _ _ => Returned "2024-05-01T11:00:00" |}.

(** The configuration of a deployment that watches two projects. *)
Definition sample_getenv (name : string) : option string :=
  if String.eqb name "FIELDWIRE_API_TOKEN" then Some "secret"
  else if String.eqb name "TEAMS_WEBHOOK_URL" then Some "https://teams.example/hook"
  else if String.eqb name "FIELDWIRE_PROJECT_IDS" then Some "p1,p3"
  else None.

(** [int] on the decimal text of the default poll interval. *)
Definition sample_int_of (s : string) : outcome Z :=
  if String.eqb s "60" then Returned 60%Z
  else Raised (OtherException "ValueError" "invalid literal for int()").

(** A template directory with one template, which prints the title. *)
Definition sample_templates : CardAny.jinja :=
  fun _ => Returned (fun args => match CardAny.task_name args with
                                 | VStr s => Returned s
                                 | _ => Raised (OtherException "UndefinedError" "title")
                                 end).

(** The integration that [__init__] builds from [sample_getenv]. *)
Definition sample_integration : Orchestrator.FieldwireToTeamsIntegration :=
  {| Orchestrator.api_token := "secret";
     Orchestrator.region := "us";
     Orchestrator.project_ids := ["p1"; "p3"];
     Orchestrator.webhook_url := "https://teams.example/hook";
     Orchestrator.poll_minutes := 60%Z;
     Orchestrator.auth := Auth.__init__ "secret" "us";
     Orchestrator.fetch := Fetch.__init__ (Auth.__init__ "secret" "us");
     Orchestrator.card_gen := sample_templates;
     Orchestrator.sender :=
       Send.__init__ "https://teams.example/hook" Send.default_rate_limit |}.

Definition sample_machine : machine Orchestrator.FieldwireToTeamsIntegration :=
  Samples.boot sample_integration 1700000000%Q.

(** A Fieldwire API whose task list holds a stray string after the
    first task. *)
Definition stray_task_api : environment :=
  answering (VDict [ ("projects", VList [Samples.project "p1" "Tower"]);
                     ("tasks", VList [VDict [("id", VStr "t1")]; VStr "oops"]) ]).

(** A webhook that accepts every card, a hundredth of a second each. *)
Definition steady_webhook : environment :=
  {| transport := fun _ _ => Returned (Samples.plain_response 200);
     latency := fun _ => (1 # 100)%Q;
     oversleep := fun _ => 0%Q;
     since_iso := fun _ _ => Returned "2024-05-01T11:00:00" |}.

End MoreSamples.

(** ** Reading the timing of a batch *)

Module Pacing.
Import Http.

(** Every POST of the batch, the first being HTTP call number [k],
    comes back with a response. *)
Fixpoint all_answered (world : environment) (target : string) (k : nat)
    (cards : list value) : Prop :=
  match cards with
  | [] => True
  | card :: rest =>
      (exists r, transport world k (Send.post_request target (Send.card_payload card))
                 = Returned r)
      /\ all_answered world target (S k) rest
  end.

(** Each time of [ts] is at least [gap] after the one before it, the
    first one at least [gap] after [prev]. *)
Fixpoint spaced (gap prev : Q) (ts : list Q) : Prop :=
  match ts with
  | [] => True
  | t :: rest => (prev + gap <= t)%Q /\ spaced gap t rest
  end.

(** The counts of two batches together. *)
Definition plus (a b : Send.tally) : Send.tally :=
  Send.mkTally (Send.success a + Send.success b) (Send.failed a + Send.failed b).

(** The times at which the HTTP calls made after those of [before]
    were issued. *)
Definition issue_times_since {O} (before after : machine O) : list Q :=
  map fst (skipn (List.length (exchanges before)) (exchanges after)).

End Pacing.

(** ** Reading what the template is rendered with *)

Module CardReading.
Import Card.
#[local] Open Scope outcome_scope.

(** The keyword arguments of lines 45-54 for a task whose assignee
    name evaluated to [assignee], with [photos] as the last one. *)
Definition context_for (task : dict) (assignee : value) (photos : list value)
  : context :=
  {| task_id := dict_get task "id" VNone;
     task_name := dict_get task "title" (VStr "Untitled Task");
     status := dict_get task "status" (VStr "unknown");
     description := dict_get task "description" (VStr "");
     due_date := dict_get task "due_date" (VStr "");
     assigned_to := assignee;
     priority := dict_get task "priority" (VStr "normal");
     photos := photos |}.

(** Lines 45-57 once the arguments are there: [template.render(...)]
    with context [ctx], then [json.loads] of the text. *)
Definition render_with (json_loads : string -> outcome value) (tpl : template)
    (ctx : context) : outcome value :=
  card_json <- tpl ctx ;;
  card <- json_loads card_json ;;
  Returned card.

(** A template that prints how many photos it was given and the first
    of them, when that one is text. *)
Definition photo_template : template :=
  fun ctx =>
    Returned (string_of_Z (Z.of_nat (List.length (photos ctx))) ++ " photos, first "
              ++ match photos ctx with
                 | VStr s :: _ => s
                 | _ => "none"
                 end).

Definition photo_generator : AdaptiveCardGenerator :=
  {| template_dir := "templates"; env := fun _ => Returned photo_template |}.

End CardReading.

(** * Properties *)

(** ** The card generator *)

Module CardFacts.
Import Card.


Lemma dict_get_present (d : dict) (k : string) (default v : value) :
  dict_lookup d k = Some v -> dict_get d k default = v.
Proof. unfold dict_get. intros ->. reflexivity. Qed.

(** The [except Exception] clause leaves nothing to escape. *)
Lemma generate_task_card_returns loads self task attachments :
  generate_task_card loads self task attachments
  = match primary_render loads self task attachments with
    | Returned card => Returned card
    | Raised _ => Returned (_get_fallback_card task)
    end.
Proof. reflexivity. Qed.

Lemma fallback_body (task : dict) :
  card_body (_get_fallback_card task)
  = [ VDict [ ("type", VStr "TextBlock"); ("size", VStr "large");
              ("weight", VStr "bolder");
              ("text", dict_get task "title" (VStr "Task Update")) ];
      VDict [ ("type", VStr "TextBlock");
              ("text", VStr ("Status: "
                             ++ py_str (dict_get task "status" (VStr "unknown"))));
              ("spacing", VStr "small") ];
      VDict [ ("type", VStr "TextBlock");
              ("text", dict_get task "description" (VStr "No description"));
              ("spacing", VStr "small") ] ].
Proof. reflexivity. Qed.

(** When the text of the title block of the fallback card is real,
    non-empty text. *)
Lemma fallback_title_nonempty_iff (task : dict) :
  nonempty_text (dict_get task "title" (VStr "Task Update")) = true
  <-> dict_lookup task "title" = None
      \/ exists s, dict_lookup task "title" = Some (VStr s) /\ s <> "".
Proof.
  unfold dict_get.
  destruct (dict_lookup task "title") as [v|] eqn:E.
  - split.
    + intros H. right. destruct v; simpl in H; try discriminate.
      exists s. split; [reflexivity|].
      intros ->. simpl in H. discriminate.
    + intros [H | (s & H & Hs)]; [discriminate|].
      injection H as ->. simpl.
      destruct (String.eqb_spec s ""); [contradiction | reflexivity].
  - split; [intros _; left; reflexivity | intros _; reflexivity].
Qed.

(** C1, as the code has it: for every task dictionary and attachment
    list [generate_task_card] returns a card and never raises; whenever
    the primary rendering raises, the card is the fallback card of the
    task, whose body is a title text block, a status line and a
    description block. The status text is never empty. The title text is
    non-empty text exactly when the task has no title (it is then "Task
    Update") or has a non-empty string as title. *)
Theorem generate_task_card_total_with_fallback :
  forall loads self (task : dict) attachments,
    (exists card, generate_task_card loads self task attachments = Returned card)
    /\ (forall e, primary_render loads self task attachments = Raised e ->
                  generate_task_card loads self task attachments
                  = Returned (_get_fallback_card task))
    /\ (exists title status_line descr status_text,
          card_body (_get_fallback_card task) = [title; status_line; descr]
          /\ is_text_block title = true
          /\ is_text_block status_line = true
          /\ is_text_block descr = true
          /\ block_field title "text"
             = Some (dict_get task "title" (VStr "Task Update"))
          /\ block_field status_line "text" = Some (VStr status_text)
          /\ nonempty_text (VStr status_text) = true
          /\ block_field descr "text"
             = Some (dict_get task "description" (VStr "No description")))
    /\ (nonempty_text (dict_get task "title" (VStr "Task Update")) = true
        <-> dict_lookup task "title" = None
            \/ exists s, dict_lookup task "title" = Some (VStr s) /\ s <> "").
Proof.
  intros loads self task attachments.
  rewrite generate_task_card_returns.
  repeat split.
  - destruct (primary_render loads self task attachments); eauto.
  - intros e ->. reflexivity.
  - rewrite fallback_body.
    do 4 eexists. repeat split.
  - apply fallback_title_nonempty_iff.
  - apply fallback_title_nonempty_iff.
Qed.

Lemma generate_task_card_total_with_fallback_witness :
  primary_render text_loads no_template [("title", VStr "Pour slab")] None
  = Raised (OtherException "TemplateNotFound" "card.json.j2")
  /\ generate_task_card text_loads no_template [("title", VStr "Pour slab")] None
     = Returned (_get_fallback_card [("title", VStr "Pour slab")]).
Proof.
  split; [reflexivity|].
  destruct (generate_task_card_total_with_fallback
              text_loads no_template [("title", VStr "Pour slab")] None)
    as (_ & H & _).
  apply (H (OtherException "TemplateNotFound" "card.json.j2")).
  reflexivity.
Defined.

(** C1 as stated fails: a task whose title is the empty string, with
    the template missing, gets the fallback card, and the text of its
    title block is empty. *)
Lemma fallback_title_empty_counterexample :
  primary_render text_loads no_template [("title", VStr "")] None
  = Raised (OtherException "TemplateNotFound" "card.json.j2")
  /\ generate_task_card text_loads no_template [("title", VStr "")] None
     = Returned (_get_fallback_card [("title", VStr "")])
  /\ block_field (nth 0 (card_body (_get_fallback_card [("title", VStr "")])) VNone)
                 "text" = Some (VStr "")
  /\ nonempty_text (VStr "") = false.
Proof. repeat split. Qed.

(** *** Attachments *)

Lemma select_photos_firstn (l : list value) :
  select_photos (Some l) = firstn 3 l.
Proof. destruct l; reflexivity. Qed.

Lemma render_kwargs_photos task attachments ctx :
  render_kwargs task attachments = Returned ctx ->
  photos ctx = select_photos attachments.
Proof.
  unfold render_kwargs, bind_outcome.
  destruct (py_get _ _ _); [|discriminate].
  intros H. injection H as <-. reflexivity.
Qed.

(** C2: once the template is loaded and the arguments of the render
    call are evaluated, [generate_task_card] renders the template with
    the first three attachments of the input, in order, when there are
    more than three, and with the whole input when there are three or
    fewer: the card it returns is what comes of that rendering. *)
Theorem photos_are_first_three :
  forall loads self (task : dict) (attachments : list value) tpl assignee,
    env self "card.json.j2" = Returned tpl ->
    py_get (dict_get task "assigned_to" (VDict [])) "name" (VStr "Unassigned")
    = Returned assignee ->
    (3 < List.length attachments ->
       primary_render loads self task (Some attachments)
       = CardReading.render_with loads tpl
           (CardReading.context_for task assignee (firstn 3 attachments))
       /\ generate_task_card loads self task (Some attachments)
          = try_except_all
              (CardReading.render_with loads tpl
                 (CardReading.context_for task assignee (firstn 3 attachments)))
              (fun _ => Returned (_get_fallback_card task))
       /\ photos (CardReading.context_for task assignee (firstn 3 attachments))
          = firstn 3 attachments
       /\ List.length (firstn 3 attachments) = 3
       /\ forall i, i < 3 ->
                    nth_error (firstn 3 attachments) i = nth_error attachments i)
    /\ (List.length attachments <= 3 ->
        primary_render loads self task (Some attachments)
        = CardReading.render_with loads tpl
            (CardReading.context_for task assignee attachments)
        /\ generate_task_card loads self task (Some attachments)
           = try_except_all
               (CardReading.render_with loads tpl
                  (CardReading.context_for task assignee attachments))
               (fun _ => Returned (_get_fallback_card task))
        /\ photos (CardReading.context_for task assignee attachments)
           = attachments).
Proof.
  intros loads self task attachments tpl assignee Htpl Hassignee.
  assert (Hrun : primary_render loads self task (Some attachments)
                 = CardReading.render_with loads tpl
                     (CardReading.context_for task assignee (firstn 3 attachments))).
  { unfold primary_render, render_kwargs. cbv zeta.
    rewrite Htpl, select_photos_firstn. cbn [bind_outcome].
    rewrite Hassignee. reflexivity. }
  split; intros Hlen.
  - split; [exact Hrun|].
    split; [unfold generate_task_card; rewrite Hrun; reflexivity|].
    split; [reflexivity|].
    split.
    + rewrite length_firstn. lia.
    + intros i Hi. rewrite nth_error_firstn.
      apply Nat.ltb_lt in Hi. rewrite Hi. reflexivity.
  - rewrite (firstn_all2 attachments Hlen) in Hrun.
    split; [exact Hrun|].
    split; [unfold generate_task_card; rewrite Hrun; reflexivity | reflexivity].
Qed.

Lemma photos_are_first_three_witness :
  generate_task_card text_loads CardReading.photo_generator
    [("title", VStr "Pour slab")] (Some five_photos)
  = Returned (VStr "3 photos, first p1")
  /\ generate_task_card text_loads CardReading.photo_generator
       [("title", VStr "Pour slab")] (Some [VStr "p1"; VStr "p2"])
     = Returned (VStr "2 photos, first p1").
Proof.
  split.
  - destruct (proj1 (photos_are_first_three text_loads CardReading.photo_generator
                       [("title", VStr "Pour slab")] five_photos
                       CardReading.photo_template (VStr "Unassigned")
                       eq_refl eq_refl)) as (_ & Hcard & _).
    + simpl. lia.
    + rewrite Hcard. reflexivity.
  - destruct (proj2 (photos_are_first_three text_loads CardReading.photo_generator
                       [("title", VStr "Pour slab")] [VStr "p1"; VStr "p2"]
                       CardReading.photo_template (VStr "Unassigned")
                       eq_refl eq_refl)) as (_ & Hcard & _).
    + simpl. lia.
    + rewrite Hcard. reflexivity.
Defined.

(** *** Defaults for missing fields *)







End CardFacts.

(** ** What a computation leaves alone *)

Module ProgFacts.
Import Http.

Section Keeps.

Context {O X : Type}.
Variable f : machine O -> X.

Lemma keeps_ret {A} (a : A) : keeps f (ret a).
Proof. intros m. reflexivity. Qed.

Lemma keeps_raise {A} (e : exn) : keeps f (@raise _ A e).
Proof. intros m. reflexivity. Qed.

Lemma keeps_lift {A} (c : outcome A) : keeps f (lift c).
Proof. intros m. reflexivity. Qed.

Lemma keeps_get_self : keeps f get_self.
Proof. intros m. reflexivity. Qed.

Lemma keeps_time_time : keeps f time_time.
Proof. intros m. reflexivity. Qed.

Lemma keeps_raise_for_status r : keeps f (raise_for_status r).
Proof.
  intros m. unfold raise_for_status. destruct (error_status r); reflexivity.
Qed.

Lemma keeps_bind {A B} (c : prog (machine O) A) (k : A -> prog (machine O) B) :
  keeps f c -> (forall a, keeps f (k a)) -> keeps f (bind c k).
Proof.
  intros Hc Hk m. unfold bind.
  specialize (Hc m).
  destruct (c m) as [[a|e] m']; simpl in *.
  - rewrite Hk. exact Hc.
  - exact Hc.
Qed.

Lemma keeps_try {A} (body : prog (machine O) A) handler :
  keeps f body -> (forall e, keeps f (handler e)) ->
  keeps f (try_except_request body handler).
Proof.
  intros Hb Hh m. unfold try_except_request.
  specialize (Hb m).
  destruct (body m) as [[a|e] m']; simpl in *.
  - exact Hb.
  - destruct (is_request_exception e); simpl.
    + rewrite Hh. exact Hb.
    + exact Hb.
Qed.

End Keeps.

Section Exchanges.

Context {O : Type}.
Variable world : environment.

Lemma keeps_exchanges_update_self (g : O -> O) :
  keeps (@exchanges O) (update_self g).
Proof. intros m. reflexivity. Qed.

Lemma keeps_exchanges_sleep (d : Q) :
  keeps (@exchanges O) (time_sleep world d).
Proof. intros m. reflexivity. Qed.

(** One HTTP call followed by code that makes none records exactly
    that call. *)
Lemma call_then_quiet {B} (req : request)
    (k : response -> prog (machine O) B) (m : machine O) :
  (forall r, keeps (@exchanges O) (k r)) ->
  exchanges (snd (bind (http_call world req) k m))
  = (exchanges m ++ [(clock m, req)])%list.
Proof.
  intros Hk. unfold bind, http_call.
  destruct (transport world _ req) as [r|e]; simpl.
  - rewrite Hk. reflexivity.
  - reflexivity.
Qed.

(** A handler that makes no call does not change what was recorded. *)
Lemma try_quiet_handler {A} (body : prog (machine O) A) handler (m : machine O) :
  (forall e, keeps (@exchanges O) (handler e)) ->
  exchanges (snd (try_except_request body handler m)) = exchanges (snd (body m)).
Proof.
  intros Hh. unfold try_except_request.
  destruct (body m) as [[a|e] m']; simpl; [reflexivity|].
  destruct (is_request_exception e); simpl; [apply Hh | reflexivity].
Qed.

Lemma keeps_self_sleep (d : Q) : keeps (@self O) (time_sleep world d).
Proof. intros m. reflexivity. Qed.

Lemma keeps_self_http_call (req : request) :
  keeps (@self O) (http_call world req).
Proof. intros m. reflexivity. Qed.

End Exchanges.

(** Discharges [keeps] goals by following the structure of the code. *)
Ltac quiet :=
  repeat first
    [ apply keeps_ret | apply keeps_raise | apply keeps_lift
    | apply keeps_get_self | apply keeps_time_time
    | apply keeps_raise_for_status
    | apply keeps_exchanges_update_self | apply keeps_exchanges_sleep
    | apply keeps_self_sleep | apply keeps_self_http_call
    | apply keeps_bind | apply keeps_try
    | match goal with
      | |- forall _, _ => intro
      | |- keeps _ (if ?b then _ else _) => destruct b
      | |- keeps _ (match ?x with _ => _ end) => destruct x
      end ].

Lemma grown_list_differs {A} (l : list A) (x : A) : (l ++ [x])%list <> l.
Proof.
  intros H. apply (f_equal (@List.length A)) in H.
  rewrite length_app in H. simpl in H. lia.
Qed.

End ProgFacts.

(** ** The token broker *)

Module AuthFacts.
Import Http Auth ProgFacts.

(** [get_jwt_token] makes exactly one HTTP call: the JWT request. *)
Lemma get_jwt_token_exchanges world (m : machine FieldwireAuth) :
  exchanges (snd (get_jwt_token world m))
  = (exchanges m ++ [(clock m, jwt_request (self m))])%list.
Proof.
  unfold get_jwt_token.
  rewrite try_quiet_handler by quiet.
  unfold bind at 1. unfold get_self at 1.
  apply call_then_quiet. quiet.
Qed.

Lemma get_auth_headers_cached world (m : machine FieldwireAuth) :
  truthy (access_token (self m)) = true ->
  get_auth_headers world m
  = (Returned [ ("Authorization", "Bearer " ++ py_str (access_token (self m)));
                ("accept", "application/json") ], m).
Proof.
  intros H. unfold get_auth_headers, bind, get_self, ret. simpl.
  rewrite H. reflexivity.
Qed.

Lemma get_auth_headers_uncached world (m : machine FieldwireAuth) :
  truthy (access_token (self m)) = false ->
  exchanges (snd (get_auth_headers world m))
  = (exchanges m ++ [(clock m, jwt_request (self m))])%list.
Proof.
  intros H. unfold get_auth_headers.
  unfold bind at 1. unfold get_self at 1. rewrite H. simpl.
  rewrite <- (get_jwt_token_exchanges world m).
  unfold bind, ret, get_self.
  destruct (get_jwt_token world m) as [[data|e] m']; reflexivity.
Qed.

(** C8: [get_auth_headers] issues an authentication request if and
    only if the cached token is falsy. With a truthy token it returns
    the bearer header built from that token and leaves the machine as
    it was (no HTTP call, same token), whatever [expires_at] and the
    clock are. With a falsy token it issues exactly the JWT request. *)
Theorem get_auth_headers_authenticates_iff_no_token :
  forall world (m : machine FieldwireAuth),
    (issued (snd (get_auth_headers world m)) <> issued m
     <-> truthy (access_token (self m)) = false)
    /\ (truthy (access_token (self m)) = true ->
        get_auth_headers world m
        = (Returned [ ("Authorization",
                        "Bearer " ++ py_str (access_token (self m)));
                      ("accept", "application/json") ], m))
    /\ (truthy (access_token (self m)) = false ->
        exchanges (snd (get_auth_headers world m))
        = (exchanges m ++ [(clock m, jwt_request (self m))])%list).
Proof.
  intros world m. split; [|split].
  - destruct (truthy (access_token (self m))) eqn:E.
    + rewrite (get_auth_headers_cached world m E). simpl.
      split; [intros H; now elim H | discriminate].
    + split; [reflexivity | intros _].
      unfold issued. rewrite (get_auth_headers_uncached world m E).
      rewrite map_app. apply grown_list_differs.
  - apply get_auth_headers_cached.
  - apply get_auth_headers_uncached.
Qed.

Lemma get_auth_headers_authenticates_iff_no_token_witness :
  get_auth_headers Samples.fieldwire_api (Samples.boot Samples.stale_auth 1700000000%Q)
  = (Returned [("Authorization", "Bearer jwt-0"); ("accept", "application/json")],
     Samples.boot Samples.stale_auth 1700000000%Q)
  /\ issued (snd (get_auth_headers Samples.fieldwire_api
                    (Samples.boot Samples.fresh_auth 1700000000%Q)))
     = [jwt_request Samples.fresh_auth].
Proof.
  split.
  - apply (proj1 (proj2 (get_auth_headers_authenticates_iff_no_token
                           Samples.fieldwire_api
                           (Samples.boot Samples.stale_auth 1700000000%Q)))).
    reflexivity.
  - unfold issued.
    rewrite (proj2 (proj2 (get_auth_headers_authenticates_iff_no_token
                             Samples.fieldwire_api
                             (Samples.boot Samples.fresh_auth 1700000000%Q)))
               eq_refl).
    reflexivity.
Defined.

End AuthFacts.

(** ** The fetch client *)

Module FetchFacts.
Import Http Fetch ProgFacts.

(** Runs the code of a method one step after the other. *)
Ltac exec :=
  unfold try_except_request, bind, http_call, raise_for_status, lift, ret,
    raise, time_time, get_self;
  simpl.

Section Listing.

Variable world : environment.
Variable fetch : FieldwireFetch.
Variable m : machine Auth.FieldwireAuth.



Lemma get_projects_unfiltered ids r d l :
  transport world (next_call m) (projects_request fetch) = Returned r ->
  error_status r = false ->
  json_result r = Returned (VDict d) ->
  dict_lookup d "projects" = Some (VList l) ->
  filter_wanted ids = None ->
  fst (get_projects world fetch ids m) = Returned (VList l).
Proof.
  intros H Hs Hj Hd Hf. unfold get_projects. exec. fold (next_call m).
  rewrite H, Hs. simpl. rewrite Hj. simpl.
  unfold dict_get. rewrite Hd, Hf. reflexivity.
Qed.

Lemma keep_ids_filter (l : list value) (wanted : list string) :
  Forall (fun p => is_dict p = true) l ->
  keep_ids l wanted = Returned (filter (fun p => in_strs (id_of p) wanted) l).
Proof.
  induction 1 as [|p l Hp _ IH]; [reflexivity|].
  destruct p; try discriminate. simpl.
  rewrite IH. simpl.
  destruct (in_strs (dict_get entries "id" VNone) wanted); reflexivity.
Qed.

Lemma get_projects_filtered ids wanted r d l :
  transport world (next_call m) (projects_request fetch) = Returned r ->
  error_status r = false ->
  json_result r = Returned (VDict d) ->
  dict_lookup d "projects" = Some (VList l) ->
  Forall (fun p => is_dict p = true) l ->
  filter_wanted ids = Some wanted ->
  fst (get_projects world fetch ids m)
  = Returned (VList (filter (fun p => in_strs (id_of p) wanted) l)).
Proof.
  intros H Hs Hj Hd Hl Hf. unfold get_projects. exec. fold (next_call m).
  rewrite H, Hs. simpl. rewrite Hj. simpl.
  unfold dict_get. rewrite Hd, Hf. simpl.
  rewrite (keep_ids_filter l wanted Hl). reflexivity.
Qed.







End Listing.

Lemma str_list_eqb_eq (a b : list string) : str_list_eqb a b = true <-> a = b.
Proof.
  revert b. induction a as [|x a IH]; intros [|y b]; simpl;
    try (split; [discriminate | intros H; discriminate H]).
  - split; reflexivity.
  - rewrite andb_true_iff, IH, String.eqb_eq.
    split; [intros [-> ->]; reflexivity | intros H; injection H; auto].
Qed.

(** The filter is ignored exactly when it is absent, empty or the
    one-element list ["ALL"]. *)
Lemma filter_wanted_none_iff (ids : option (list string)) :
  filter_wanted ids = None
  <-> ids = None \/ ids = Some [] \/ ids = Some ["ALL"].
Proof.
  destruct ids as [[|x rest]|]; unfold filter_wanted.
  - split; auto.
  - destruct (str_list_eqb (x :: rest) ["ALL"]) eqn:E; simpl.
    + apply str_list_eqb_eq in E. rewrite E. split; intros _; auto.
    + split; [discriminate|].
      intros [H | [H | H]]; try discriminate.
      injection H as H1 H2.
      assert (Heq : str_list_eqb (x :: rest) ["ALL"] = true)
        by (apply str_list_eqb_eq; congruence).
      congruence.
  - split; auto.
Qed.

Lemma filter_wanted_some (wanted : list string) :
  wanted <> [] -> wanted <> ["ALL"] -> filter_wanted (Some wanted) = Some wanted.
Proof.
  intros Hne Hall.
  destruct (filter_wanted (Some wanted)) as [w|] eqn:E.
  - destruct wanted as [|x rest]; [contradiction|]. unfold filter_wanted in E.
    destruct (str_list_eqb (x :: rest) ["ALL"]); simpl in E; congruence.
  - apply filter_wanted_none_iff in E as [E | [E | E]];
      [discriminate | injection E; contradiction | injection E; contradiction].
Qed.

Lemma in_strs_spec (v : value) (wanted : list string) :
  in_strs v wanted = true <-> exists s, v = VStr s /\ In s wanted.
Proof.
  split.
  - destruct v; simpl; try discriminate.
    intros H. apply existsb_exists in H as (x & Hin & Hx).
    apply String.eqb_eq in Hx. subst x. eauto.
  - intros (s & -> & Hin). simpl. apply existsb_exists.
    exists s. split; [exact Hin | apply String.eqb_refl].
Qed.



(** C7: on a fetched list of project dicts, a non-empty filter other
    than ["ALL"] keeps exactly the projects whose id is one of the
    filter's strings, in the order of the fetched list; an absent or
    empty filter and the filter ["ALL"] keep the whole list. *)
Theorem get_projects_filters_by_membership :
  forall world fetch (m : machine Auth.FieldwireAuth) ids r d l,
    transport world (next_call m) (projects_request fetch) = Returned r ->
    error_status r = false ->
    json_result r = Returned (VDict d) ->
    dict_lookup d "projects" = Some (VList l) ->
    Forall (fun p => is_dict p = true) l ->
    (ids = None \/ ids = Some [] \/ ids = Some ["ALL"] ->
     fst (get_projects world fetch ids m) = Returned (VList l))
    /\ (forall wanted,
          ids = Some wanted -> wanted <> [] -> wanted <> ["ALL"] ->
          fst (get_projects world fetch ids m)
          = Returned (VList (filter (fun p => in_strs (id_of p) wanted) l)))
    /\ (forall wanted p,
          in_strs (id_of p) wanted = true
          <-> exists s, id_of p = VStr s /\ In s wanted).
Proof.
  intros world fetch m ids r d l H Hs Hj Hd Hl.
  split; [|split].
  - intros Hids. apply filter_wanted_none_iff in Hids.
    eapply get_projects_unfiltered; eassumption.
  - intros wanted -> Hne Hall.
    eapply get_projects_filtered; try eassumption.
    apply filter_wanted_some; assumption.
  - intros wanted p. apply in_strs_spec.
Qed.

Lemma get_projects_filters_by_membership_witness :
  fst (get_projects Samples.fieldwire_api Samples.sample_fetch (Some ["p3"; "zz"; "p1"])
         (Samples.boot Samples.fresh_auth 1700000000%Q))
  = Returned (VList [Samples.project "p1" "Tower"; Samples.project "p3" "Depot"]).
Proof.
  refine (proj1 (proj2 (get_projects_filters_by_membership
            Samples.fieldwire_api Samples.sample_fetch
            (Samples.boot Samples.fresh_auth 1700000000%Q)
            (Some ["p3"; "zz"; "p1"]) _ _ Samples.three_projects
            eq_refl eq_refl eq_refl eq_refl _))
          ["p3"; "zz"; "p1"] eq_refl _ _);
    [ repeat constructor | discriminate | discriminate ].
Defined.

(** *** The frozen header *)

Lemma request_of_from_client world fetch m op req :
  request_of world fetch m op = Some req -> from_client fetch req.
Proof.
  destruct op; simpl.
  - intros H. injection H as <-. split; [reflexivity | discriminate].
  - destruct (since_iso world (clock m) minutes_back); [|discriminate].
    intros H. injection H as <-. split; [reflexivity | discriminate].
  - intros H. injection H as <-. split; [reflexivity | discriminate].
  - intros H. injection H as <-. split; [reflexivity | discriminate].
Qed.

(** No method of the client writes to the auth object. *)
Lemma after_keeps_auth world fetch m op :
  self (after world fetch m op) = self m.
Proof.
  destruct op; simpl.
  - unfold get_projects.
    apply (keeps_try (fun m => self m)); quiet.
  - unfold get_tasks.
    apply (keeps_try (fun m => self m)); quiet.
  - unfold get_task_attachments.
    apply (keeps_try (fun m => self m)); quiet.
  - unfold get_attachment_url.
    apply (keeps_try (fun m => self m)); quiet.
Qed.

(** A method makes at most one HTTP call, the one [request_of] names. *)
Lemma after_exchanges world fetch m op :
  exchanges (after world fetch m op)
  = (exchanges m ++ match request_of world fetch m op with
                    | Some req => [(clock m, req)]
                    | None => []
                    end)%list.
Proof.
  destruct op; simpl.
  - unfold get_projects. rewrite try_quiet_handler by quiet.
    apply call_then_quiet. quiet.
  - unfold get_tasks. rewrite try_quiet_handler by quiet.
    unfold bind at 1. unfold time_time at 1.
    unfold bind at 1. unfold lift at 1.
    destruct (since_iso world (clock m) minutes_back) as [since|e].
    + apply call_then_quiet. quiet.
    + simpl. symmetry. apply app_nil_r.
  - unfold get_task_attachments. rewrite try_quiet_handler by quiet.
    apply call_then_quiet. quiet.
  - unfold get_attachment_url. rewrite try_quiet_handler by quiet.
    apply call_then_quiet. quiet.
Qed.

Lemma after_all_keeps_auth world fetch ops : forall m,
  self (after_all world fetch m ops) = self m.
Proof.
  unfold after_all.
  induction ops as [|op ops IH]; intros m; simpl; [reflexivity|].
  rewrite IH. apply after_keeps_auth.
Qed.

Lemma after_all_issued world fetch ops : forall m,
  exists fresh,
    issued (after_all world fetch m ops) = (issued m ++ fresh)%list
    /\ Forall (from_client fetch) fresh.
Proof.
  unfold after_all.
  induction ops as [|op ops IH]; intros m; simpl.
  - exists []. split; [symmetry; apply app_nil_r | constructor].
  - destruct (IH (after world fetch m op)) as (fresh & Hi & Hf).
    rewrite Hi. unfold issued at 1. rewrite after_exchanges, map_app.
    fold (issued m).
    destruct (request_of world fetch m op) as [req|] eqn:E; simpl.
    + exists (req :: fresh). split.
      * rewrite <- app_assoc. reflexivity.
      * constructor; [eapply request_of_from_client; eassumption | exact Hf].
    + exists fresh. split; [rewrite app_nil_r; reflexivity | exact Hf].
Qed.

(** C10: the client's Authorization header is the text built in
    [__init__] from the token the auth object held then; for a fresh
    auth object it reads "Bearer None". Whatever the auth object holds
    later (the machine [m] is arbitrary), any sequence of calls of the
    client's methods leaves the auth object untouched, issues no POST,
    and every request it issues carries that same header text. *)
Theorem fetch_header_is_frozen :
  forall world (auth0 : Auth.FieldwireAuth) (m : machine Auth.FieldwireAuth)
         (ops : list operation),
    Fetch.headers (Fetch.__init__ auth0)
    = [ ("Authorization", "Bearer " ++ py_str (Auth.access_token auth0));
        ("Content-Type", "application/json") ]
    /\ (forall api_token region,
          Fetch.headers (Fetch.__init__ (Auth.__init__ api_token region))
          = [ ("Authorization", "Bearer None");
              ("Content-Type", "application/json") ])
    /\ self (after_all world (Fetch.__init__ auth0) m ops) = self m
    /\ exists fresh,
         issued (after_all world (Fetch.__init__ auth0) m ops)
         = (issued m ++ fresh)%list
         /\ Forall (fun req =>
                      Http.headers req = Fetch.headers (Fetch.__init__ auth0)
                      /\ method req <> POST) fresh.
Proof.
  intros world auth0 m ops.
  split; [reflexivity|].
  split; [reflexivity|].
  split; [apply after_all_keeps_auth|].
  apply after_all_issued.
Qed.

(** The integration builds the client right after the auth object. A
    token obtained afterwards through [get_auth_headers] sits in the
    auth object, and the client still sends "Bearer None". *)
Example late_token_is_not_used :
  let m1 := snd (Auth.get_auth_headers Samples.fieldwire_api
                   (Samples.boot Samples.fresh_auth 1700000000%Q)) in
  Auth.access_token (self m1) = VStr "jwt-1"
  /\ map Http.headers
       (issued (after_all Samples.fieldwire_api Samples.sample_fetch m1
                  [GetProjects None; GetTasks (VStr "p1") 60]))
     = [ [("accept", "application/json"); ("content-type", "application/json")];
         [("Authorization", "Bearer None"); ("Content-Type", "application/json")];
         [("Authorization", "Bearer None"); ("Content-Type", "application/json")] ].
Proof. split; reflexivity. Qed.

End FetchFacts.

(** ** The webhook sender *)

Module SendFacts.
Import Http Send ProgFacts.

Ltac exec :=
  unfold try_except_request, bind, http_call, update_self, time_sleep, lift,
    ret, raise, time_time, get_self;
  simpl.

Section OneCard.

Variable world : environment.
Variable card : value.
Variable m : machine TeamsWebhookSender.

(** What [send_card] returns is decided by the transport alone. *)
Lemma send_card_result :
  fst (send_card world card m)
  = match transport world (next_call m) (card_request (self m) card) with
    | Returned r => Returned (status_code r =? 200)%Z
    | Raised e => if is_request_exception e then Returned false else Raised e
    end.
Proof.
  unfold send_card, card_request, next_call. exec.
  destruct (Qlt_le_dec _ _); simpl;
    (destruct (transport world _ _) as [r|e]; simpl;
     [ destruct (status_code r =? 200)%Z; [reflexivity|];
       destruct (status_code r =? 429)%Z; [reflexivity|];
       destruct (status_code r =? 401)%Z; reflexivity
     | destruct (is_request_exception e); reflexivity ]).
Qed.

(** It makes exactly one HTTP call, at [issue_time]. *)
Lemma send_card_exchanges :
  exchanges (snd (send_card world card m))
  = (exchanges m ++ [(issue_time world m, card_request (self m) card)])%list.
Proof.
  unfold send_card, card_request, issue_time. exec.
  destruct (Qlt_le_dec _ _); simpl;
    (destruct (transport world _ _) as [r|e]; simpl;
     [ destruct (status_code r =? 200)%Z; [reflexivity|];
       destruct (status_code r =? 429)%Z; [reflexivity|];
       destruct (status_code r =? 401)%Z; reflexivity
     | destruct (is_request_exception e); reflexivity ]).
Qed.

(** The address and the minimum delay of the sender never change. *)
Lemma send_card_keeps_settings :
  webhook_url (self (snd (send_card world card m))) = webhook_url (self m)
  /\ rate_limit (self (snd (send_card world card m))) = rate_limit (self m).
Proof.
  unfold send_card. exec.
  destruct (Qlt_le_dec _ _); simpl;
    (destruct (transport world _ _) as [r|e]; simpl;
     [ destruct (status_code r =? 200)%Z; [split; reflexivity|];
       destruct (status_code r =? 429)%Z; [split; reflexivity|];
       destruct (status_code r =? 401)%Z; split; reflexivity
     | destruct (is_request_exception e); split; reflexivity ]).
Qed.

(** When the POST comes back with a response, the sender stamps the
    time the response arrived, which is also the clock on return. *)
Lemma send_card_stamp r :
  transport world (next_call m) (card_request (self m) card) = Returned r ->
  last_send_time (self (snd (send_card world card m)))
  = (issue_time world m + latency world (next_call m))%Q
  /\ clock (snd (send_card world card m))
     = (issue_time world m + latency world (next_call m))%Q.
Proof.
  unfold send_card, card_request, issue_time, next_call. exec.
  destruct (Qlt_le_dec _ _); simpl; intros ->; simpl;
    (destruct (status_code r =? 200)%Z; [split; reflexivity|];
     destruct (status_code r =? 429)%Z; [split; reflexivity|];
     destruct (status_code r =? 401)%Z; split; reflexivity).
Qed.

(** The POST is never issued sooner than the minimum delay after the
    stamp the sender holds. *)
Lemma issue_time_paced :
  (0 <= oversleep world (naps m))%Q ->
  (last_send_time (self m) + rate_limit (self m) <= issue_time world m)%Q.
Proof.
  intros Hov. unfold issue_time.
  destruct (Qlt_le_dec _ _) as [Hlt|Hle]; lra.
Qed.

Lemma issue_time_not_before_entry :
  (0 <= oversleep world (naps m))%Q -> (clock m <= issue_time world m)%Q.
Proof.
  intros Hov. unfold issue_time.
  destruct (Qlt_le_dec _ _) as [Hlt|Hle]; lra.
Qed.

End OneCard.

Lemma test_webhook_result world (m : machine TeamsWebhookSender) :
  fst (test_webhook world m)
  = match transport world (next_call m)
            (post_request (webhook_url (self m)) test_payload) with
    | Returned r => Returned (status_code r =? 200)%Z
    | Raised e => if is_request_exception e then Returned false else Raised e
    end.
Proof.
  unfold test_webhook, next_call. exec.
  destruct (transport world _ _) as [r|e]; simpl.
  - destruct (status_code r =? 200)%Z; reflexivity.
  - destruct (is_request_exception e); reflexivity.
Qed.

(** A call that returns or raises as [sent] returns true exactly on a
    response with status 200, and false on any other response and on a
    [RequestException]. *)
Lemma verdict_of_transport (sent : outcome response) (result : outcome bool) :
  result = match sent with
           | Returned r => Returned (status_code r =? 200)%Z
           | Raised e => if is_request_exception e then Returned false else Raised e
           end ->
  (result = Returned true
   <-> exists r, sent = Returned r /\ status_code r = 200%Z)
  /\ (forall r, sent = Returned r -> status_code r <> 200%Z ->
                result = Returned false)
  /\ (forall msg, sent = Raised (RequestException msg) ->
                  result = Returned false).
Proof.
  intros ->. split; [|split].
  - destruct sent as [r|e].
    + split.
      * intros H. injection H as H. apply Z.eqb_eq in H. eauto.
      * intros (r' & Hr & H200). injection Hr as <-.
        apply Z.eqb_eq in H200. rewrite H200. reflexivity.
    + split.
      * destruct (is_request_exception e); discriminate.
      * intros (r & Hr & _). discriminate.
  - intros r -> Hne. apply Z.eqb_neq in Hne. rewrite Hne. reflexivity.
  - intros msg ->. reflexivity.
Qed.

(** C5: [send_card] returns true exactly when the webhook answers with
    status 200; it returns false, without raising, on every other
    response (429, 401 and the rest) and on a [RequestException] of the
    transport. [test_webhook] does the same with its probe. *)
Theorem send_card_true_iff_200 :
  forall world card (m : machine TeamsWebhookSender),
    ((fst (send_card world card m) = Returned true
      <-> exists r,
            transport world (next_call m) (card_request (self m) card) = Returned r
            /\ status_code r = 200%Z)
     /\ (forall r,
           transport world (next_call m) (card_request (self m) card) = Returned r ->
           status_code r <> 200%Z ->
           fst (send_card world card m) = Returned false)
     /\ (forall msg,
           transport world (next_call m) (card_request (self m) card)
           = Raised (RequestException msg) ->
           fst (send_card world card m) = Returned false))
    /\ ((fst (test_webhook world m) = Returned true
         <-> exists r,
               transport world (next_call m)
                 (post_request (webhook_url (self m)) test_payload) = Returned r
               /\ status_code r = 200%Z)
        /\ (forall r,
              transport world (next_call m)
                (post_request (webhook_url (self m)) test_payload) = Returned r ->
              status_code r <> 200%Z ->
              fst (test_webhook world m) = Returned false)
        /\ (forall msg,
              transport world (next_call m)
                (post_request (webhook_url (self m)) test_payload)
              = Raised (RequestException msg) ->
              fst (test_webhook world m) = Returned false)).
Proof.
  intros world card m. split.
  - apply verdict_of_transport, send_card_result.
  - apply verdict_of_transport, test_webhook_result.
Qed.

Lemma send_card_true_iff_200_witness :
  fst (send_card Samples.moody_webhook Samples.card_b Samples.second_entry)
  = Returned false
  /\ fst (test_webhook Samples.flaky_webhook Samples.first_entry) = Returned false.
Proof.
  split.
  - refine (proj1 (proj2 (proj1 (send_card_true_iff_200
              Samples.moody_webhook Samples.card_b Samples.second_entry)))
            (Samples.plain_response 429) _ _);
      [ vm_compute; reflexivity | discriminate ].
  - refine (proj2 (proj2 (proj2 (send_card_true_iff_200
              Samples.flaky_webhook Samples.card_a Samples.first_entry)))
            "ConnectionError" _).
    reflexivity.
Defined.

(** *** Batches *)

Lemma count_of_cons (b x : bool) (l : list bool) :
  count_of b (x :: l) = ((if Bool.eqb b x then 1 else 0) + count_of b l)%Z.
Proof.
  unfold count_of. cbn [filter].
  destruct (Bool.eqb b x); cbn [List.length]; lia.
Qed.

Lemma count_of_total (l : list bool) :
  (count_of true l + count_of false l)%Z = Z.of_nat (List.length l).
Proof.
  induction l as [|x l IH]; [reflexivity|].
  rewrite !count_of_cons. destruct x; cbn [Bool.eqb List.length]; lia.
Qed.

Lemma verdicts_length world target k cards :
  List.length (verdicts world target k cards) = List.length cards.
Proof.
  revert k. induction cards as [|c cards IH]; intros k; simpl;
    [reflexivity | rewrite IH; reflexivity].
Qed.

Lemma send_card_next_call world card (m : machine TeamsWebhookSender) :
  next_call (snd (send_card world card m)) = S (next_call m).
Proof.
  unfold next_call. rewrite send_card_exchanges, length_app. simpl. lia.
Qed.

(** A send whose transport raises at most a [RequestException]
    returns its verdict. *)
Lemma send_card_returns world card (m : machine TeamsWebhookSender) :
  (forall e, transport world (next_call m) (card_request (self m) card) = Raised e ->
             is_request_exception e = true) ->
  fst (send_card world card m)
  = Returned (delivered world (next_call m) (card_request (self m) card)).
Proof.
  intros H. rewrite send_card_result. unfold delivered.
  destruct (transport world _ _) as [r|e]; [reflexivity|].
  rewrite (H e eq_refl). reflexivity.
Qed.

(** The loop of [send_batch], from any counts so far. *)
Lemma send_each_spec world cards : forall results (m : machine TeamsWebhookSender),
  sends_return world (webhook_url (self m)) (next_call m) cards ->
  exists m',
    send_each world cards results m
    = (Returned
         (mkTally
            (success results
             + count_of true (verdicts world (webhook_url (self m)) (next_call m) cards))
            (failed results
             + count_of false (verdicts world (webhook_url (self m)) (next_call m) cards))),
       m')
    /\ issued m' = (issued m ++ map (card_request (self m)) cards)%list.
Proof.
  induction cards as [|card rest IH]; intros results m Hret.
  - exists m. simpl. unfold ret, count_of. simpl.
    rewrite !Z.add_0_r, app_nil_r. destruct results. split; reflexivity.
  - destruct Hret as (Hhead & Hrest).
    pose proof (send_card_returns world card m Hhead) as Hfst.
    pose proof (send_card_next_call world card m) as Hnext.
    pose proof (send_card_exchanges world card m) as Hex.
    destruct (send_card_keeps_settings world card m) as (Hurl & _).
    simpl send_each. unfold bind.
    destruct (send_card world card m) as [verdict m1]. simpl in *.
    subst verdict.
    rewrite <- Hurl, <- Hnext in Hrest.
    destruct (IH (if delivered world (next_call m) (card_request (self m) card)
                  then mkTally (success results + 1) (failed results)
                  else mkTally (success results) (failed results + 1))
                 m1 Hrest) as (m' & Hrun & Hissued).
    exists m'. split.
    + rewrite Hrun, Hurl, Hnext, !count_of_cons.
      fold (card_request (self m) card).
      destruct (delivered world (next_call m) (card_request (self m) card));
        cbn [Bool.eqb success failed]; do 2 f_equal; f_equal; lia.
    + rewrite Hissued. unfold issued at 1. rewrite Hex, map_app. simpl.
      rewrite <- app_assoc. simpl.
      unfold card_request. rewrite Hurl. reflexivity.
Qed.

(** C4: when every send of a batch of N cards returns (M of them with
    false, the others with true), [send_batch] posts all N cards, in
    order, and returns [{success: N - M, failed: M}]. *)
Theorem send_batch_tallies_every_card :
  forall world cards (m : machine TeamsWebhookSender),
    sends_return world (webhook_url (self m)) (next_call m) cards ->
    exists counts m',
      send_batch world cards m = (Returned counts, m')
      /\ issued m' = (issued m ++ map (card_request (self m)) cards)%list
      /\ failed counts
         = count_of false (verdicts world (webhook_url (self m)) (next_call m) cards)
      /\ success counts
         = count_of true (verdicts world (webhook_url (self m)) (next_call m) cards)
      /\ success counts = (Z.of_nat (List.length cards) - failed counts)%Z
      /\ (success counts + failed counts)%Z = Z.of_nat (List.length cards).
Proof.
  intros world cards m Hret.
  destruct (send_each_spec world cards (mkTally 0 0) m Hret) as (m' & Hrun & Hissued).
  pose proof (count_of_total (verdicts world (webhook_url (self m)) (next_call m) cards))
    as Htotal.
  rewrite verdicts_length in Htotal.
  eexists. exists m'. split; [exact Hrun|].
  split; [exact Hissued|].
  simpl. repeat split; lia.
Qed.

Lemma send_batch_tallies_every_card_witness :
  exists m',
    send_batch Samples.moody_webhook Samples.four_cards Samples.first_entry
    = (Returned (mkTally 1 3), m')
    /\ issued m' = map (card_request Samples.sender) Samples.four_cards.
Proof.
  assert (Hret : sends_return Samples.moody_webhook
                   (webhook_url (self Samples.first_entry))
                   (next_call Samples.first_entry) Samples.four_cards).
  { simpl. repeat split; intros e H; try discriminate H.
    injection H as <-. reflexivity. }
  destruct (send_batch_tallies_every_card Samples.moody_webhook Samples.four_cards
              Samples.first_entry Hret)
    as (counts & m' & Hrun & Hissued & Hfailed & Hsuccess & _).
  exists m'. split.
  - rewrite Hrun. destruct counts as [ok ko]. simpl in Hfailed, Hsuccess.
    rewrite Hfailed, Hsuccess. reflexivity.
  - exact Hissued.
Defined.

(** *** Pacing *)

(** C9, as the code has it: take two consecutive calls of [send_card]
    on one sender, the caller letting any time [d >= 0] pass in
    between. Each call issues one POST. If the POST of the first call
    came back with a response, the sender stamped the time it arrived,
    and the POST of the second call is issued at least the minimum
    delay after that stamp, hence at least the minimum delay after the
    first POST was issued. The delay runs from the end of one POST to
    the start of the next, not from call entry to call entry. *)
Theorem consecutive_posts_are_paced :
  forall world card1 card2 (m0 : machine TeamsWebhookSender) (d : Q) r,
    time_advances world ->
    (0 <= d)%Q ->
    transport world (next_call m0) (card_request (self m0) card1) = Returned r ->
    exists t1 t2,
      exchanges (snd (send_card world card2
                        (pause d (snd (send_card world card1 m0)))))
      = (exchanges m0 ++ [ (t1, card_request (self m0) card1);
                           (t2, card_request (self m0) card2) ])%list
      /\ last_send_time (self (snd (send_card world card1 m0)))
         = (t1 + latency world (next_call m0))%Q
      /\ (last_send_time (self (snd (send_card world card1 m0)))
          + rate_limit (self m0) <= t2)%Q
      /\ (t1 + rate_limit (self m0) <= t2)%Q
      /\ (last_send_time (self m0) + rate_limit (self m0) <= t1)%Q.
Proof.
  intros world card1 card2 m0 d r (Hlat & Hov) Hd Hresp.
  destruct (send_card_keeps_settings world card1 m0) as (Hurl & Hrate).
  destruct (send_card_stamp world card1 m0 r Hresp) as (Hstamp & _).
  pose proof (send_card_exchanges world card1 m0) as Hex1.
  pose proof (issue_time_paced world m0 (Hov _)) as Hpaced1.
  set (m1 := pause d (snd (send_card world card1 m0))).
  pose proof (send_card_exchanges world card2 m1) as Hex2.
  pose proof (issue_time_paced world m1 (Hov _)) as Hpaced2.
  exists (issue_time world m0), (issue_time world m1).
  split; [|split; [|split; [|split]]].
  - rewrite Hex2. unfold m1 at 1. simpl exchanges. rewrite Hex1.
    rewrite <- app_assoc. simpl.
    unfold card_request, m1. simpl self. rewrite Hurl. reflexivity.
  - exact Hstamp.
  - unfold m1 in Hpaced2 at 1 2. simpl self in Hpaced2.
    rewrite Hrate in Hpaced2. exact Hpaced2.
  - unfold m1 in Hpaced2 at 1 2. simpl self in Hpaced2.
    rewrite Hrate, Hstamp in Hpaced2.
    specialize (Hlat (next_call m0)). lra.
  - exact Hpaced1.
Qed.

Lemma moody_time_advances : time_advances Samples.moody_webhook.
Proof. split; intros; simpl; lra. Qed.

Lemma consecutive_posts_are_paced_witness :
  exists t1 t2,
    map fst (exchanges (snd (send_card Samples.moody_webhook Samples.card_b
                               (pause 0 Samples.second_entry))))
    = [t1; t2]
    /\ (t1 + Send.default_rate_limit <= t2)%Q.
Proof.
  destruct (consecutive_posts_are_paced Samples.moody_webhook
              Samples.card_a Samples.card_b Samples.first_entry 0%Q
              (Samples.plain_response 200) moody_time_advances
              (Qle_refl 0) eq_refl)
    as (t1 & t2 & Hex & _ & _ & Hgap & _).
  exists t1, t2. split.
  - unfold Samples.second_entry. rewrite Hex. reflexivity.
  - exact Hgap.
Defined.

(** C9 as stated fails: the first call enters at 1700000000 s, posts at
    once (the sender was never used) and returns when the answer
    arrives, a hundredth of a second later; the second call enters
    right then, 0.01 s after the first one did, with a minimum delay of
    0.25 s. *)
Lemma entry_to_entry_counterexample :
  fst (send_card Samples.moody_webhook Samples.card_a Samples.first_entry)
  = Returned true
  /\ rate_limit (self Samples.first_entry) = (25 # 100)%Q
  /\ (clock Samples.second_entry - clock Samples.first_entry == 1 # 100)%Q
  /\ ~ (rate_limit (self Samples.first_entry)
        <= clock Samples.second_entry - clock Samples.first_entry)%Q.
Proof.
  split; [reflexivity|]. split; [reflexivity|]. split.
  - vm_compute. reflexivity.
  - apply Qlt_not_le. vm_compute. reflexivity.
Qed.

(** When the first POST ends in a [RequestException] the sender keeps
    its old stamp, and the next POST may follow at once. *)
Example failed_post_is_not_stamped :
  fst (send_card Samples.flaky_webhook Samples.card_a Samples.first_entry)
  = Returned false
  /\ last_send_time (self Samples.second_entry_after_failure) = 0%Q
  /\ (issue_time Samples.flaky_webhook Samples.second_entry_after_failure
      - issue_time Samples.flaky_webhook Samples.first_entry == 1 # 100)%Q.
Proof.
  split; [reflexivity|]. split; [reflexivity|].
  vm_compute. reflexivity.
Qed.

End SendFacts.

(** ** More on the card generator *)

Module CardMore.
Import Card.

(** X1: Attachments beyond the third never reach the card, and an empty
    list of attachments is as good as none. *)
Theorem extra_attachments_are_ignored :
  forall loads self (task : dict) (attachments : list value),
    generate_task_card loads self task (Some attachments)
    = generate_task_card loads self task (Some (firstn 3 attachments))
    /\ generate_task_card loads self task (Some [])
       = generate_task_card loads self task None.
Proof.
  intros loads self task attachments. split; [|reflexivity].
  unfold generate_task_card, primary_render, render_kwargs.
  rewrite !CardFacts.select_photos_firstn, firstn_firstn.
  reflexivity.
Qed.

(** X2: An assignee that is present but is not an object (null, a name as
    plain text) makes the render call fail before the template is
    used: the card is the fallback card, whatever the template. *)
Theorem non_dict_assignee_gives_fallback :
  forall loads self (task : dict) attachments v,
    dict_lookup task "assigned_to" = Some v ->
    Fetch.is_dict v = false ->
    generate_task_card loads self task attachments
    = Returned (_get_fallback_card task).
Proof.
  intros loads self task attachments v Hv Hd.
  unfold generate_task_card, primary_render, render_kwargs, try_except_all.
  rewrite (CardFacts.dict_get_present _ _ _ _ Hv).
  destruct (env self "card.json.j2") as [tpl|e]; simpl; [|reflexivity].
  destruct v; try discriminate Hd; reflexivity.
Qed.

Lemma non_dict_assignee_gives_fallback_witness :
  generate_task_card text_loads title_generator
    [("title", VStr "Pour slab"); ("assigned_to", VNone)] None
  = Returned (_get_fallback_card
                [("title", VStr "Pour slab"); ("assigned_to", VNone)]).
Proof.
  apply (non_dict_assignee_gives_fallback text_loads title_generator
           [("title", VStr "Pour slab"); ("assigned_to", VNone)] None VNone);
    reflexivity.
Defined.

(** *** The batch message *)

Lemma length_append (a b : string) :
  String.length (a ++ b) = String.length a + String.length b.
Proof. induction a as [|c a IH]; simpl; [reflexivity | rewrite IH; reflexivity]. Qed.

Lemma append_cancel_r (a b s : string) : a ++ s = b ++ s -> a = b.
Proof.
  revert b. induction a as [|c a IH]; intros [|c' b] H; simpl in H.
  - reflexivity.
  - apply (f_equal String.length) in H. simpl in H.
    rewrite length_append in H. lia.
  - apply (f_equal String.length) in H. simpl in H.
    rewrite length_append in H. lia.
  - injection H as -> H. f_equal. apply IH, H.
Qed.

Lemma string_of_Z_inj (n n' : Z) : string_of_Z n = string_of_Z n' -> n = n'.
Proof.
  intros H. apply DecimalZ.to_int_inj.
  assert (Hnn : forall z, Z.to_int z <> Decimal.Pos Decimal.Nil
                          /\ Z.to_int z <> Decimal.Neg Decimal.Nil).
  { intros [|p|p]; simpl; split; try discriminate;
      intros E; injection E; apply DecimalPos.Unsigned.to_uint_nonnil. }
  apply (f_equal NilZero.int_of_string) in H. unfold string_of_Z in H.
  rewrite !NilZero.isi in H by apply Hnn.
  injection H; auto.
Qed.

(** X3: The batch message says how many cards there are and nothing else
    about them: two batches get the same message exactly when they have
    the same number of cards. *)
Theorem batch_message_tells_the_count :
  forall cards cards' : list value,
    generate_batch_message cards = generate_batch_message cards'
    <-> List.length cards = List.length cards'.
Proof.
  intros cards cards'. split.
  - unfold generate_batch_message. intros H.
    injection H as _ H.
    apply append_cancel_r in H.
    apply string_of_Z_inj in H. lia.
  - unfold generate_batch_message. intros ->. reflexivity.
Qed.

Lemma batch_message_tells_the_count_witness :
  generate_batch_message five_photos
  = generate_batch_message [VNone; VNone; VNone; VNone; VNone].
Proof.
  apply (proj2 (batch_message_tells_the_count five_photos
                  [VNone; VNone; VNone; VNone; VNone])).
  reflexivity.
Defined.

(** *** The generator on arbitrary values *)

(** X4: On a task that is a dict [generate_task_card] returns a card,
    whatever the attachments value is; on anything else even the
    fallback fails, and [AttributeError] escapes. *)
Theorem generate_task_card_returns_iff_dict :
  forall loads env (task attachments : value),
    (Fetch.is_dict task = true ->
     exists card, CardAny.generate_task_card loads env task attachments
                  = Returned card)
    /\ (Fetch.is_dict task = false ->
        CardAny.generate_task_card loads env task attachments
        = Raised (AttributeError "object has no attribute 'get'")).
Proof.
  intros loads env task attachments. split; intros Hd.
  - destruct task; try discriminate Hd.
    unfold CardAny.generate_task_card.
    destruct (CardAny.primary_render _ _ _ _); [eauto|].
    eexists. reflexivity.
  - unfold CardAny.generate_task_card, CardAny.primary_render.
    destruct (env "card.json.j2") as [tpl|e]; simpl;
      [destruct (CardAny.select_photos attachments); simpl|];
      destruct task; try discriminate Hd; reflexivity.
Qed.

Lemma generate_task_card_returns_iff_dict_witness :
  CardAny.generate_task_card text_loads (fun _ => Raised (TypeError "no template"))
    VNone (VList [])
  = Raised (AttributeError "object has no attribute 'get'").
Proof.
  apply (proj2 (generate_task_card_returns_iff_dict text_loads
                  (fun _ => Raised (TypeError "no template")) VNone (VList []))).
  reflexivity.
Defined.

(** On a task dict and a list of attachments (or none) the untyped
    reading gives the card of the typed one. *)
Lemma typed_reading_agrees :
  forall loads env (task : dict) (attachments : option (list value)),
    CardAny.generate_task_card loads env (VDict task)
      (CardAny.attachments_value attachments)
    = generate_task_card loads (CardAny.typed_generator env) task attachments.
Proof.
  intros loads env task attachments.
  unfold CardAny.generate_task_card, CardAny.primary_render,
    generate_task_card, primary_render, try_except_all. simpl.
  destruct (env "card.json.j2") as [tpl|e]; simpl; [|reflexivity].
  assert (Hp : CardAny.select_photos (CardAny.attachments_value attachments)
               = Returned (VList (select_photos attachments))).
  { destruct attachments as [[|a l]|]; reflexivity. }
  rewrite Hp. unfold CardAny.render_kwargs, render_kwargs. simpl.
  destruct (py_get (dict_get task "assigned_to" (VDict [])) "name"
              (VStr "Unassigned")) as [assignee|e]; simpl; [|reflexivity].
  unfold CardAny.typed_template at 1. simpl.
  destruct (tpl _) as [text|e]; simpl; [|reflexivity].
  destruct (loads text); reflexivity.
Qed.

End CardMore.

(** ** More on the token broker *)

Module AuthMore.
Import Http Auth.

Ltac exec :=
  unfold try_except_request, bind, http_call, raise_for_status, update_self,
    lift, ret, raise, get_self;
  simpl.

(** X6: The auth object folds the region to lower case and falls back to
    the US endpoint for any region it does not know; the fetch client
    built from it puts the region into its host name as it was given. *)
Theorem auth_endpoint_follows_region :
  forall api_token region,
    (lower region = "eu" ->
     base_url (__init__ api_token region) = "https://client-api.fieldwire.eu")
    /\ (lower region <> "eu" -> base_url (__init__ api_token region) = us_url)
    /\ Fetch.base_url (Fetch.__init__ (__init__ api_token region))
       = "https://api." ++ region ++ ".fieldwire.io/api".
Proof.
  intros api_token region. split; [|split; [|reflexivity]].
  - intros H. unfold __init__. cbn [base_url]. rewrite H. reflexivity.
  - intros H. unfold __init__, BASE_URLS. cbn [base_url urls_lookup].
    destruct (String.eqb_spec "us" (lower region)); [reflexivity|].
    destruct (String.eqb_spec "eu" (lower region)); [congruence | reflexivity].
Qed.

Lemma auth_endpoint_follows_region_witness :
  base_url (__init__ "secret" "EU") = "https://client-api.fieldwire.eu"
  /\ base_url (__init__ "secret" "asia") = us_url.
Proof.
  split.
  - apply (proj1 (auth_endpoint_follows_region "secret" "EU")). reflexivity.
  - apply (proj1 (proj2 (auth_endpoint_follows_region "secret" "asia"))).
    discriminate.
Defined.

(** X7: [get_jwt_token] is all or nothing. When it returns, the answer was
    a JSON object outside the 4xx/5xx range, the object is what it
    returns, and token and expiry are the object's entries ([None] for
    a missing one). When it raises, the auth object is as it was; an
    exception of the transport is passed on unchanged. *)
Theorem get_jwt_token_all_or_nothing :
  forall world (m : machine FieldwireAuth),
    (forall data,
        fst (get_jwt_token world m) = Returned data ->
        exists r d,
          transport world (next_call m) (jwt_request (self m)) = Returned r
          /\ error_status r = false
          /\ json_result r = Returned (VDict d)
          /\ data = VDict d
          /\ self (snd (get_jwt_token world m))
             = mkAuth (api_token (self m)) (region (self m)) (base_url (self m))
                      (dict_get d "access_token" VNone)
                      (dict_get d "expires_at" VNone))
    /\ (forall e,
          fst (get_jwt_token world m) = Raised e ->
          self (snd (get_jwt_token world m)) = self m)
    /\ (forall e,
          transport world (next_call m) (jwt_request (self m)) = Raised e ->
          fst (get_jwt_token world m) = Raised e).
Proof.
  intros world m. unfold get_jwt_token, next_call. exec.
  destruct (transport world _ _) as [r|e0]; simpl.
  - destruct (error_status r) eqn:Hs; simpl.
    + split; [|split]; intros; (discriminate || reflexivity).
    + destruct (json_result r) as [data0|e1] eqn:Hj; simpl.
      * destruct data0; simpl;
          try (split; [|split]; intros; (discriminate || reflexivity)).
        split; [|split]; intros; try discriminate.
        match goal with H : Returned _ = Returned _ |- _ => injection H as <- end.
        exists r, entries. repeat split; assumption.
      * destruct (is_request_exception e1);
          (split; [|split]; intros; (discriminate || reflexivity)).
  - destruct (is_request_exception e0) eqn:He; simpl;
      (split; [|split]; intros; try discriminate; try reflexivity; congruence).
Qed.

Lemma get_jwt_token_all_or_nothing_witness :
  self (snd (get_jwt_token Samples.fieldwire_api
               (Samples.boot Samples.fresh_auth 1700000000%Q)))
  = mkAuth "secret" "us" us_url (VStr "jwt-1") (VStr "2024-05-01T13:00:00Z")
  /\ self (snd (get_jwt_token Samples.unreachable_api
                  (Samples.boot Samples.stale_auth 1700000000%Q)))
     = Samples.stale_auth.
Proof.
  split.
  - destruct (proj1 (get_jwt_token_all_or_nothing Samples.fieldwire_api
                       (Samples.boot Samples.fresh_auth 1700000000%Q))
                    _ eq_refl)
      as (r & d & Hr & _ & Hj & _ & Hself).
    injection Hr as <-. injection Hj as <-. exact Hself.
  - apply (proj1 (proj2 (get_jwt_token_all_or_nothing Samples.unreachable_api
                           (Samples.boot Samples.stale_auth 1700000000%Q)))
                 (RequestException "ConnectionError")).
    reflexivity.
Defined.

Lemma get_jwt_token_raised_keeps_self world (m : machine FieldwireAuth) e :
  fst (get_jwt_token world m) = Raised e ->
  self (snd (get_jwt_token world m)) = self m.
Proof.
  unfold get_jwt_token. exec.
  destruct (transport world _ _) as [r|e0]; simpl.
  - destruct (error_status r); simpl; [reflexivity|].
    destruct (json_result r) as [data|e1]; simpl.
    + destruct data; simpl; try reflexivity. discriminate.
    + destruct (is_request_exception e1); reflexivity.
  - destruct (is_request_exception e0); reflexivity.
Qed.

(** The header [get_auth_headers] returns is built from the token the
    auth object holds when it returns. *)
Lemma get_auth_headers_value world (m : machine FieldwireAuth) hs :
  fst (get_auth_headers world m) = Returned hs ->
  hs = [ ("Authorization",
           "Bearer " ++ py_str (access_token (self (snd (get_auth_headers world m)))));
         ("accept", "application/json") ].
Proof.
  unfold get_auth_headers, bind, get_self, ret. simpl.
  destruct (negb (truthy (access_token (self m)))).
  - destruct (get_jwt_token world m) as [[data|e] m']; simpl.
    + intros H. injection H as <-. reflexivity.
    + discriminate.
  - simpl. intros H. injection H as <-. reflexivity.
Qed.

(** X8: Once [get_auth_headers] has returned with a truthy token in place,
    calling it again returns the same header and changes nothing: no
    request, no new token, whatever time has passed. *)
Theorem auth_header_stays_cached :
  forall world world' (m : machine FieldwireAuth) hs (later : Q),
    fst (get_auth_headers world m) = Returned hs ->
    truthy (access_token (self (snd (get_auth_headers world m)))) = true ->
    get_auth_headers world'
      (mkMachine (self (snd (get_auth_headers world m)))
                 (clock (snd (get_auth_headers world m)) + later)%Q
                 (exchanges (snd (get_auth_headers world m)))
                 (naps (snd (get_auth_headers world m))))
    = (Returned hs,
       mkMachine (self (snd (get_auth_headers world m)))
                 (clock (snd (get_auth_headers world m)) + later)%Q
                 (exchanges (snd (get_auth_headers world m)))
                 (naps (snd (get_auth_headers world m)))).
Proof.
  intros world world' m hs later Hhs Htok.
  rewrite AuthFacts.get_auth_headers_cached by exact Htok.
  simpl. rewrite (get_auth_headers_value world m hs Hhs). reflexivity.
Qed.

Lemma auth_header_stays_cached_witness :
  fst (get_auth_headers Samples.unreachable_api
         (mkMachine
            (self (snd (get_auth_headers Samples.fieldwire_api
                          (Samples.boot Samples.fresh_auth 1700000000%Q))))
            (clock (snd (get_auth_headers Samples.fieldwire_api
                           (Samples.boot Samples.fresh_auth 1700000000%Q)))
             + 86400)%Q
            (exchanges (snd (get_auth_headers Samples.fieldwire_api
                               (Samples.boot Samples.fresh_auth 1700000000%Q))))
            (naps (snd (get_auth_headers Samples.fieldwire_api
                          (Samples.boot Samples.fresh_auth 1700000000%Q))))))
  = Returned [("Authorization", "Bearer jwt-1"); ("accept", "application/json")].
Proof.
  rewrite (auth_header_stays_cached Samples.fieldwire_api Samples.unreachable_api
             (Samples.boot Samples.fresh_auth 1700000000%Q)
             [("Authorization", "Bearer jwt-1"); ("accept", "application/json")]
             86400%Q eq_refl eq_refl).
  reflexivity.
Defined.

(** X9: When no token is cached and the exchange fails, the exception
    leaves [get_auth_headers] too: no header is returned, and the auth
    object is as it was. *)
Theorem auth_failure_escapes :
  forall world (m : machine FieldwireAuth) e,
    truthy (access_token (self m)) = false ->
    fst (get_jwt_token world m) = Raised e ->
    fst (get_auth_headers world m) = Raised e
    /\ self (snd (get_auth_headers world m)) = self m.
Proof.
  intros world m e Htok Hjwt.
  pose proof (get_jwt_token_raised_keeps_self world m e Hjwt) as Hself.
  unfold get_auth_headers, bind, get_self, ret. simpl. rewrite Htok. simpl.
  destruct (get_jwt_token world m) as [[data|e'] m']; simpl in *.
  - discriminate.
  - injection Hjwt as ->. split; [reflexivity | exact Hself].
Qed.

Lemma auth_failure_escapes_witness :
  fst (get_auth_headers Samples.unreachable_api
         (Samples.boot Samples.fresh_auth 1700000000%Q))
  = Raised (RequestException "ConnectionError").
Proof.
  apply (auth_failure_escapes Samples.unreachable_api
           (Samples.boot Samples.fresh_auth 1700000000%Q)
           (RequestException "ConnectionError")); reflexivity.
Defined.

(** X10: When the exchange succeeds but the answer carries no usable token
    (the key is missing, or holds null or empty text),
    [get_auth_headers] does not fail: it returns a header built from
    that value ("Bearer None" for a missing key), and the token stays
    falsy, so the next call will authenticate again. *)
Theorem unusable_token_is_sent_anyway :
  forall world (m : machine FieldwireAuth) r d,
    truthy (access_token (self m)) = false ->
    transport world (next_call m) (jwt_request (self m)) = Returned r ->
    error_status r = false ->
    json_result r = Returned (VDict d) ->
    truthy (dict_get d "access_token" VNone) = false ->
    fst (get_auth_headers world m)
    = Returned [ ("Authorization",
                   "Bearer " ++ py_str (dict_get d "access_token" VNone));
                 ("accept", "application/json") ]
    /\ truthy (access_token (self (snd (get_auth_headers world m)))) = false
    /\ (dict_lookup d "access_token" = None ->
        fst (get_auth_headers world m)
        = Returned [ ("Authorization", "Bearer None");
                     ("accept", "application/json") ]).
Proof.
  intros world m r d Htok Hr Hs Hj Hbad.
  assert (Hrun : fst (get_auth_headers world m)
                 = Returned [ ("Authorization",
                                "Bearer " ++ py_str (dict_get d "access_token" VNone));
                              ("accept", "application/json") ]
                 /\ access_token (self (snd (get_auth_headers world m)))
                    = dict_get d "access_token" VNone).
  { unfold get_auth_headers, get_jwt_token, next_call in *. exec.
    rewrite Htok. simpl. rewrite Hr. simpl. rewrite Hs. simpl. rewrite Hj.
    simpl. split; reflexivity. }
  destruct Hrun as (Hfst & Hnew).
  split; [exact Hfst|]. split.
  - rewrite Hnew. exact Hbad.
  - intros Hmiss. rewrite Hfst. unfold dict_get. rewrite Hmiss. reflexivity.
Qed.

Lemma unusable_token_is_sent_anyway_witness :
  fst (get_auth_headers MoreSamples.tokenless_api (Samples.boot Samples.fresh_auth 1700000000%Q))
  = Returned [("Authorization", "Bearer None"); ("accept", "application/json")].
Proof.
  refine (proj2 (proj2 (unusable_token_is_sent_anyway MoreSamples.tokenless_api
            (Samples.boot Samples.fresh_auth 1700000000%Q)
            _ [("message", VStr "ok")] eq_refl eq_refl eq_refl eq_refl eq_refl))
          eq_refl).
Defined.

End AuthMore.

(** ** More on the fetch client *)

Module FetchMore.
Import Http Fetch.

Ltac exec :=
  unfold try_except_request, bind, http_call, raise_for_status, lift, ret,
    raise, time_time, get_self;
  simpl.

(** X11: [get_attachment_url] gives the final address of any answer outside
    the 4xx/5xx range, and [None] on an error status or when the
    transport fails; it never looks at the body. *)
Theorem get_attachment_url_result :
  forall world fetch (m : machine Auth.FieldwireAuth) aid pid,
    (forall r,
        transport world (next_call m) (media_request fetch aid pid) = Returned r ->
        fst (get_attachment_url world fetch aid pid m)
        = Returned (if error_status r then None else Some (final_url r)))
    /\ (forall msg,
          transport world (next_call m) (media_request fetch aid pid)
          = Raised (RequestException msg) ->
          fst (get_attachment_url world fetch aid pid m) = Returned None).
Proof.
  intros world fetch m aid pid. unfold get_attachment_url, next_call. exec.
  split.
  - intros r ->. simpl. destruct (error_status r); reflexivity.
  - intros msg ->. reflexivity.
Qed.

Lemma get_attachment_url_result_witness :
  fst (get_attachment_url Samples.fieldwire_api Samples.sample_fetch
         (VStr "a1") (VStr "p1") (Samples.boot Samples.fresh_auth 1700000000%Q))
  = Returned (Some "https://cdn.example/media")
  /\ fst (get_attachment_url Samples.unreachable_api Samples.sample_fetch
            (VStr "a1") (VStr "p1") (Samples.boot Samples.fresh_auth 1700000000%Q))
     = Returned None.
Proof.
  split.
  - rewrite (proj1 (get_attachment_url_result Samples.fieldwire_api
                      Samples.sample_fetch
                      (Samples.boot Samples.fresh_auth 1700000000%Q)
                      (VStr "a1") (VStr "p1"))
                   _ eq_refl).
    reflexivity.
  - apply (proj2 (get_attachment_url_result Samples.unreachable_api
                    Samples.sample_fetch
                    (Samples.boot Samples.fresh_auth 1700000000%Q)
                    (VStr "a1") (VStr "p1"))
                 "ConnectionError").
    reflexivity.
Defined.

(** X12: The listings are fail-soft for the transport only. A body that is
    valid JSON but not an object makes all three raise
    [AttributeError] to the caller. *)
Theorem non_object_body_escapes :
  forall world fetch (m : machine Auth.FieldwireAuth) r body,
    error_status r = false ->
    json_result r = Returned body ->
    is_dict body = false ->
    (forall ids,
        transport world (next_call m) (projects_request fetch) = Returned r ->
        fst (get_projects world fetch ids m)
        = Raised (AttributeError "object has no attribute 'get'"))
    /\ (forall pid minutes since,
          since_iso world (clock m) minutes = Returned since ->
          transport world (next_call m) (tasks_request fetch pid since) = Returned r ->
          fst (get_tasks world fetch pid minutes m)
          = Raised (AttributeError "object has no attribute 'get'"))
    /\ (forall pid tid,
          transport world (next_call m) (attachments_request fetch pid tid)
          = Returned r ->
          fst (get_task_attachments world fetch pid tid m)
          = Raised (AttributeError "object has no attribute 'get'")).
Proof.
  intros world fetch m r body Hs Hj Hd.
  assert (Hget : forall k default,
             py_get body k default
             = Raised (AttributeError "object has no attribute 'get'")).
  { intros k default. destruct body; try discriminate Hd; reflexivity. }
  split; [|split].
  - intros ids H. unfold get_projects, next_call in *. exec.
    rewrite H, Hs. simpl. rewrite Hj. simpl. rewrite Hget. reflexivity.
  - intros pid minutes since Hi H. unfold get_tasks, next_call in *. exec.
    rewrite Hi. simpl. rewrite H, Hs. simpl. rewrite Hj. simpl.
    rewrite Hget. reflexivity.
  - intros pid tid H. unfold get_task_attachments, next_call in *. exec.
    rewrite H, Hs. simpl. rewrite Hj. simpl. rewrite Hget. reflexivity.
Qed.

(** X13: A JSON object without the expected key counts as an empty listing,
    with or without a filter. *)
Theorem missing_key_gives_empty_list :
  forall world fetch (m : machine Auth.FieldwireAuth) r d,
    error_status r = false ->
    json_result r = Returned (VDict d) ->
    (forall ids,
        dict_lookup d "projects" = None ->
        transport world (next_call m) (projects_request fetch) = Returned r ->
        fst (get_projects world fetch ids m) = Returned (VList []))
    /\ (forall pid minutes since,
          dict_lookup d "tasks" = None ->
          since_iso world (clock m) minutes = Returned since ->
          transport world (next_call m) (tasks_request fetch pid since) = Returned r ->
          fst (get_tasks world fetch pid minutes m) = Returned (VList []))
    /\ (forall pid tid,
          dict_lookup d "attachments" = None ->
          transport world (next_call m) (attachments_request fetch pid tid)
          = Returned r ->
          fst (get_task_attachments world fetch pid tid m) = Returned (VList [])).
Proof.
  intros world fetch m r d Hs Hj.
  split; [|split].
  - intros ids Hd H. unfold get_projects, next_call in *. exec.
    rewrite H, Hs. simpl. rewrite Hj. simpl.
    unfold dict_get. rewrite Hd.
    destruct (filter_wanted ids); reflexivity.
  - intros pid minutes since Hd Hi H. unfold get_tasks, next_call in *. exec.
    rewrite Hi. simpl. rewrite H, Hs. simpl. rewrite Hj. simpl.
    unfold dict_get. rewrite Hd. reflexivity.
  - intros pid tid Hd H. unfold get_task_attachments, next_call in *. exec.
    rewrite H, Hs. simpl. rewrite Hj. simpl.
    unfold dict_get. rewrite Hd. reflexivity.
Qed.

(** *** The id filter *)

Lemma keep_ids_same_members (l : list value) (wanted wanted' : list string) :
  (forall s, In s wanted <-> In s wanted') ->
  keep_ids l wanted = keep_ids l wanted'.
Proof.
  intros Hsame.
  assert (Hin : forall v, in_strs v wanted = in_strs v wanted').
  { intros v.
    destruct (in_strs v wanted) eqn:E, (in_strs v wanted') eqn:E';
      try reflexivity.
    - apply FetchFacts.in_strs_spec in E as (s & -> & Hs).
      apply Hsame in Hs.
      assert (in_strs (VStr s) wanted' = true)
        by (apply FetchFacts.in_strs_spec; eauto).
      congruence.
    - apply FetchFacts.in_strs_spec in E' as (s & -> & Hs).
      apply Hsame in Hs.
      assert (in_strs (VStr s) wanted = true)
        by (apply FetchFacts.in_strs_spec; eauto).
      congruence. }
  induction l as [|p l IH]; [reflexivity|].
  simpl. rewrite IH.
  destruct (py_get p "id" VNone) as [id|e]; simpl; [|reflexivity].
  rewrite Hin. reflexivity.
Qed.

(** X14: Only membership in the filter counts: two filters with the same
    ids, in any order and with any repeats, make [get_projects] behave
    the same. The filters must be real ones: ["ALL"] alone is the
    sentinel, ["ALL"; "ALL"] is a filter for the id "ALL". *)
Theorem filter_order_and_repeats_do_not_matter :
  forall world fetch (m : machine Auth.FieldwireAuth) wanted wanted',
    wanted <> [] -> wanted <> ["ALL"] ->
    wanted' <> [] -> wanted' <> ["ALL"] ->
    (forall s, In s wanted <-> In s wanted') ->
    get_projects world fetch (Some wanted) m
    = get_projects world fetch (Some wanted') m.
Proof.
  intros world fetch m wanted wanted' Hne Hall Hne' Hall' Hsame.
  unfold get_projects.
  rewrite (FetchFacts.filter_wanted_some wanted Hne Hall).
  rewrite (FetchFacts.filter_wanted_some wanted' Hne' Hall').
  exec.
  destruct (transport world _ _) as [r|e]; simpl; [|reflexivity].
  destruct (error_status r); simpl; [reflexivity|].
  destruct (json_result r) as [body|e]; simpl; [|reflexivity].
  destruct (py_get body "projects" (VList [])) as [projects|e]; simpl;
    [|reflexivity].
  destruct (py_iter projects) as [items|e]; simpl; [|reflexivity].
  rewrite (keep_ids_same_members items wanted wanted' Hsame).
  reflexivity.
Qed.

Lemma filter_order_and_repeats_do_not_matter_witness :
  get_projects Samples.fieldwire_api Samples.sample_fetch (Some ["p3"; "p1"; "p3"])
    (Samples.boot Samples.fresh_auth 1700000000%Q)
  = get_projects Samples.fieldwire_api Samples.sample_fetch (Some ["p1"; "p3"])
      (Samples.boot Samples.fresh_auth 1700000000%Q).
Proof.
  apply (filter_order_and_repeats_do_not_matter Samples.fieldwire_api
           Samples.sample_fetch (Samples.boot Samples.fresh_auth 1700000000%Q)
           ["p3"; "p1"; "p3"] ["p1"; "p3"]);
    try discriminate.
  intros s. simpl. tauto.
Defined.

Lemma keep_ids_needs_dicts (l : list value) (wanted : list string) :
  Exists (fun p => is_dict p = false) l ->
  keep_ids l wanted = Raised (AttributeError "object has no attribute 'get'").
Proof.
  induction l as [|p l IH]; intros H; [inversion H|].
  simpl. destruct p; try reflexivity.
  inversion H as [? ? Hp | ? ? Hl]; subst; [discriminate Hp|].
  simpl. rewrite (IH Hl). reflexivity.
Qed.

(** X15: One entry of the project list that is not an object is harmless
    without a filter (the list is returned as it is) and fatal with
    one: the filtered listing raises [AttributeError]. *)
Theorem filter_needs_project_dicts :
  forall world fetch (m : machine Auth.FieldwireAuth) r d l,
    transport world (next_call m) (projects_request fetch) = Returned r ->
    error_status r = false ->
    json_result r = Returned (VDict d) ->
    dict_lookup d "projects" = Some (VList l) ->
    Exists (fun p => is_dict p = false) l ->
    fst (get_projects world fetch None m) = Returned (VList l)
    /\ (forall wanted,
          wanted <> [] -> wanted <> ["ALL"] ->
          fst (get_projects world fetch (Some wanted) m)
          = Raised (AttributeError "object has no attribute 'get'")).
Proof.
  intros world fetch m r d l H Hs Hj Hd Hbad. split.
  - eapply FetchFacts.get_projects_unfiltered; try eassumption. reflexivity.
  - intros wanted Hne Hall. unfold get_projects, next_call in *.
    rewrite (FetchFacts.filter_wanted_some wanted Hne Hall). exec.
    rewrite H, Hs. simpl. rewrite Hj. simpl.
    unfold dict_get. rewrite Hd. simpl.
    rewrite (keep_ids_needs_dicts l wanted Hbad). reflexivity.
Qed.

Lemma non_object_body_escapes_witness :
  fst (get_task_attachments MoreSamples.list_body_api Samples.sample_fetch
         (VStr "p1") (VStr "t1") MoreSamples.auth_machine)
  = Raised (AttributeError "object has no attribute 'get'").
Proof.
  refine (proj2 (proj2 (non_object_body_escapes MoreSamples.list_body_api
            Samples.sample_fetch MoreSamples.auth_machine
            (Samples.json_response 200 (VList [VStr "maintenance"]))
            (VList [VStr "maintenance"]) eq_refl eq_refl eq_refl))
          (VStr "p1") (VStr "t1") eq_refl).
Defined.

Lemma missing_key_gives_empty_list_witness :
  fst (get_projects MoreSamples.empty_object_api Samples.sample_fetch
         (Some ["p1"]) MoreSamples.auth_machine)
  = Returned (VList []).
Proof.
  refine (proj1 (missing_key_gives_empty_list MoreSamples.empty_object_api
            Samples.sample_fetch MoreSamples.auth_machine
            (Samples.json_response 200 (VDict [])) [] eq_refl eq_refl)
          (Some ["p1"]) eq_refl eq_refl).
Defined.

Lemma filter_needs_project_dicts_witness :
  fst (get_projects MoreSamples.stray_entry_api Samples.sample_fetch
         (Some ["p1"]) MoreSamples.auth_machine)
  = Raised (AttributeError "object has no attribute 'get'").
Proof.
  refine (proj2 (filter_needs_project_dicts MoreSamples.stray_entry_api
            Samples.sample_fetch MoreSamples.auth_machine
            _ _ [Samples.project "p1" "Tower"; VStr "oops"]
            eq_refl eq_refl eq_refl eq_refl _)
          ["p1"] _ _);
    [ right; left; reflexivity | discriminate | discriminate ].
Defined.

End FetchMore.

(** ** More on the webhook sender *)

Module SendMore.
Import Http Send Pacing.

Ltac exec :=
  unfold try_except_request, bind, http_call, update_self, time_sleep, lift,
    ret, raise, time_time, get_self;
  simpl.

(** X16: [test_webhook] is not a send as far as pacing goes: it posts at
    once, never sleeps, and leaves the sender (and so its stamp) as it
    was, whatever the answer. *)
Theorem test_webhook_is_not_paced :
  forall world (m : machine TeamsWebhookSender),
    snd (test_webhook world m)
    = mkMachine (self m)
                (clock m + latency world (next_call m))%Q
                (exchanges m
                 ++ [(clock m, post_request (webhook_url (self m)) test_payload)])
                (naps m).
Proof.
  intros world m. unfold test_webhook, next_call. exec.
  destruct (transport world _ _) as [r|e]; simpl.
  - destruct (status_code r =? 200)%Z; reflexivity.
  - destruct (is_request_exception e); reflexivity.
Qed.

Lemma send_card_naps world card (m : machine TeamsWebhookSender) :
  naps (snd (send_card world card m))
  = if Qlt_le_dec (clock m - last_send_time (self m)) (rate_limit (self m))
    then S (naps m) else naps m.
Proof.
  unfold send_card. exec.
  destruct (Qlt_le_dec _ _); simpl;
    (destruct (transport world _ _) as [r|e]; simpl;
     [ destruct (status_code r =? 200)%Z; [reflexivity|];
       destruct (status_code r =? 429)%Z; [reflexivity|];
       destruct (status_code r =? 401)%Z; reflexivity
     | destruct (is_request_exception e); reflexivity ]).
Qed.

(** X17: [send_card] adds no delay once the minimum delay has passed since
    the stamp: the POST goes out at entry and there is no sleep.
    Otherwise it sleeps exactly once, for what is left of the delay. *)
Theorem send_card_sleeps_only_when_needed :
  forall world card (m : machine TeamsWebhookSender),
    ((rate_limit (self m) <= clock m - last_send_time (self m))%Q ->
     exchanges (snd (send_card world card m))
     = (exchanges m ++ [(clock m, card_request (self m) card)])%list
     /\ naps (snd (send_card world card m)) = naps m)
    /\ ((clock m - last_send_time (self m) < rate_limit (self m))%Q ->
        exists t,
          exchanges (snd (send_card world card m))
          = (exchanges m ++ [(t, card_request (self m) card)])%list
          /\ (t == last_send_time (self m) + rate_limit (self m)
                   + oversleep world (naps m))%Q
          /\ naps (snd (send_card world card m)) = S (naps m)).
Proof.
  intros world card m.
  rewrite SendFacts.send_card_exchanges, send_card_naps. unfold issue_time.
  split; intros H.
  - destruct (Qlt_le_dec _ _) as [Hlt|Hle]; [lra|]. split; reflexivity.
  - destruct (Qlt_le_dec _ _) as [Hlt|Hle]; [|lra].
    eexists. split; [reflexivity|]. split; [ring | reflexivity].
Qed.

Lemma send_card_sleeps_only_when_needed_witness :
  naps (snd (send_card Samples.moody_webhook Samples.card_a Samples.first_entry)) = 0
  /\ naps (snd (send_card Samples.moody_webhook Samples.card_b Samples.second_entry))
     = 1.
Proof.
  split.
  - apply (proj1 (send_card_sleeps_only_when_needed Samples.moody_webhook
                    Samples.card_a Samples.first_entry)).
    vm_compute. discriminate.
  - destruct (proj2 (send_card_sleeps_only_when_needed Samples.moody_webhook
                       Samples.card_b Samples.second_entry))
      as (t & _ & _ & Hn).
    + vm_compute. reflexivity.
    + exact Hn.
Defined.

(** X18: When the POST ends in an exception, the sender is left as it was:
    the failed attempt is not stamped. *)
Theorem failed_post_leaves_sender_unchanged :
  forall world card (m : machine TeamsWebhookSender) e,
    transport world (next_call m) (card_request (self m) card) = Raised e ->
    self (snd (send_card world card m)) = self m.
Proof.
  intros world card m e. unfold send_card, card_request, next_call. exec.
  destruct (Qlt_le_dec _ _); simpl; intros ->; simpl;
    destruct (is_request_exception e); reflexivity.
Qed.

Lemma failed_post_leaves_sender_unchanged_witness :
  self (snd (send_card Samples.flaky_webhook Samples.card_a Samples.first_entry))
  = Samples.sender.
Proof.
  apply (failed_post_leaves_sender_unchanged Samples.flaky_webhook Samples.card_a
           Samples.first_entry (RequestException "ConnectionError")).
  reflexivity.
Defined.

(** X19: The stamp never runs ahead of the clock, and neither goes
    backwards. *)
Theorem stamp_follows_clock :
  forall world card (m : machine TeamsWebhookSender),
    time_advances world ->
    (last_send_time (self m) <= clock m)%Q ->
    (last_send_time (self (snd (send_card world card m)))
     <= clock (snd (send_card world card m)))%Q
    /\ (clock m <= clock (snd (send_card world card m)))%Q
    /\ (last_send_time (self m)
        <= last_send_time (self (snd (send_card world card m))))%Q.
Proof.
  intros world card m (Hlat & Hov) Hinv.
  specialize (Hlat (List.length (exchanges m))). specialize (Hov (naps m)).
  unfold send_card. exec.
  destruct (Qlt_le_dec _ _) as [Hlt|Hle]; simpl;
    (destruct (transport world _ _) as [r|e]; simpl;
     [ destruct (status_code r =? 200)%Z; [simpl; repeat split; lra|];
       destruct (status_code r =? 429)%Z; [simpl; repeat split; lra|];
       destruct (status_code r =? 401)%Z; simpl; repeat split; lra
     | destruct (is_request_exception e); simpl; repeat split; lra ]).
Qed.

Lemma stamp_follows_clock_witness :
  (last_send_time (self Samples.second_entry) <= clock Samples.second_entry)%Q.
Proof.
  apply (stamp_follows_clock Samples.moody_webhook Samples.card_a
           Samples.first_entry SendFacts.moody_time_advances).
  vm_compute. discriminate.
Defined.

(** *** Batches in pieces *)

(** Starting the loop from other counts only shifts its result. *)
Lemma send_each_shift world cards : forall results extra (m : machine TeamsWebhookSender),
  send_each world cards (plus results extra) m
  = (match fst (send_each world cards results m) with
     | Returned counts => Returned (plus counts extra)
     | Raised e => Raised e
     end,
     snd (send_each world cards results m)).
Proof.
  induction cards as [|card rest IH]; intros results extra m.
  - reflexivity.
  - cbn [send_each]. unfold bind.
    destruct (send_card world card m) as [[ok|e] m1]; [|reflexivity].
    replace (if ok
             then mkTally (success (plus results extra) + 1) (failed (plus results extra))
             else mkTally (success (plus results extra)) (failed (plus results extra) + 1))
      with (plus (if ok then mkTally (success results + 1) (failed results)
                  else mkTally (success results) (failed results + 1)) extra).
    + apply IH.
    + destruct ok; unfold plus; simpl; f_equal; lia.
Qed.

Lemma send_each_app world a b : forall results (m : machine TeamsWebhookSender),
  send_each world (a ++ b) results m
  = bind (send_each world a results) (fun counts => send_each world b counts) m.
Proof.
  induction a as [|card rest IH]; intros results m.
  - reflexivity.
  - cbn [send_each app]. unfold bind.
    destruct (send_card world card m) as [[ok|e] m1]; [|reflexivity].
    rewrite IH. reflexivity.
Qed.

(** X20: Sending one batch is sending its two halves one after the other:
    the machine ends the same and the counts add up; if a half raises,
    so does the whole, at the same point. *)
Theorem send_batch_splits :
  forall world (a b : list value) (m : machine TeamsWebhookSender),
    send_batch world (a ++ b) m
    = match send_batch world a m with
      | (Returned first, m1) =>
          match send_batch world b m1 with
          | (Returned second, m2) => (Returned (plus first second), m2)
          | (Raised e, m2) => (Raised e, m2)
          end
      | (Raised e, m1) => (Raised e, m1)
      end.
Proof.
  intros world a b m. unfold send_batch.
  rewrite send_each_app. unfold bind.
  destruct (send_each world a (mkTally 0 0) m) as [[first|e] m1]; [|reflexivity].
  replace first with (plus (mkTally 0 0) first) at 1
    by (destruct first; unfold plus; simpl; f_equal; lia).
  rewrite send_each_shift.
  destruct (send_each world b (mkTally 0 0) m1) as [[second|e] m2]; simpl.
  - f_equal. f_equal. unfold plus. simpl. f_equal; lia.
  - reflexivity.
Qed.

Lemma send_each_keeps_url world cards : forall results (m : machine TeamsWebhookSender),
  webhook_url (self (snd (send_each world cards results m))) = webhook_url (self m).
Proof.
  induction cards as [|card rest IH]; intros results m; [reflexivity|].
  cbn [send_each]. unfold bind.
  destruct (SendFacts.send_card_keeps_settings world card m) as (Hu & _).
  destruct (send_card world card m) as [[ok|e] m1]; simpl in *.
  - rewrite IH. exact Hu.
  - exact Hu.
Qed.

(** X21: An exception that is not a [RequestException] ends the batch: it
    leaves [send_batch], the counts so far are lost, and the cards
    after the one that raised are never posted. *)
Theorem send_batch_aborts_on_other_exception :
  forall world (before after : list value) card (m : machine TeamsWebhookSender) e,
    sends_return world (webhook_url (self m)) (next_call m) before ->
    transport world (next_call m + List.length before)
      (card_request (self m) card) = Raised e ->
    is_request_exception e = false ->
    fst (send_batch world (before ++ card :: after) m) = Raised e
    /\ issued (snd (send_batch world (before ++ card :: after) m))
       = (issued m ++ map (card_request (self m)) (before ++ [card]))%list.
Proof.
  intros world before after card m e Hret Hraise Hother.
  destruct (SendFacts.send_each_spec world before (mkTally 0 0) m Hret)
    as (m1 & Hrun & Hissued).
  assert (Hnext : next_call m1 = next_call m + List.length before).
  { unfold next_call. apply (f_equal (@List.length _)) in Hissued.
    unfold issued in Hissued.
    rewrite length_app, !length_map in Hissued. exact Hissued. }
  assert (Hurl : webhook_url (self m1) = webhook_url (self m)).
  { pose proof (send_each_keeps_url world before (mkTally 0 0) m) as H.
    rewrite Hrun in H. exact H. }
  unfold send_batch. rewrite send_each_app. unfold bind. rewrite Hrun.
  cbn [send_each]. unfold bind.
  pose proof (SendFacts.send_card_result world card m1) as Hres.
  pose proof (SendFacts.send_card_exchanges world card m1) as Hex.
  unfold card_request in *. rewrite Hurl, Hnext in Hres. rewrite Hurl in Hex.
  rewrite Hraise, Hother in Hres.
  destruct (send_card world card m1) as [verdict m2]. simpl in *.
  subst verdict. split; [reflexivity|].
  cbn [snd]. unfold issued at 1. rewrite Hex, map_app. fold (issued m1).
  rewrite Hissued, map_app, <- app_assoc. reflexivity.
Qed.

Lemma send_batch_aborts_on_other_exception_witness :
  fst (send_batch MoreSamples.crashing_webhook Samples.four_cards Samples.first_entry)
  = Raised (TypeError "Object is not JSON serializable")
  /\ List.length
       (issued (snd (send_batch MoreSamples.crashing_webhook Samples.four_cards
                       Samples.first_entry))) = 2.
Proof.
  assert (Hret : sends_return MoreSamples.crashing_webhook
                   (webhook_url (self Samples.first_entry))
                   (next_call Samples.first_entry) [Samples.card_a]).
  { simpl. split; [|exact I]. intros e H. discriminate H. }
  destruct (send_batch_aborts_on_other_exception MoreSamples.crashing_webhook
              [Samples.card_a] [Samples.card_c; Samples.card_d] Samples.card_b
              Samples.first_entry (TypeError "Object is not JSON serializable")
              Hret eq_refl eq_refl) as (Hfst & Hissued).
  split.
  - exact Hfst.
  - change ([Samples.card_a] ++ Samples.card_b :: [Samples.card_c; Samples.card_d])%list
      with Samples.four_cards in Hissued.
    rewrite Hissued. reflexivity.
Defined.

(** *** The timing of a batch *)

Lemma send_each_spaced world cards :
  forall results (m : machine TeamsWebhookSender) (prev : Q),
    time_advances world ->
    (prev <= last_send_time (self m))%Q ->
    all_answered world (webhook_url (self m)) (next_call m) cards ->
    exists fresh,
      exchanges (snd (send_each world cards results m))
      = (exchanges m ++ fresh)%list
      /\ List.length fresh = List.length cards
      /\ spaced (rate_limit (self m)) prev (map fst fresh).
Proof.
  induction cards as [|card rest IH]; intros results m prev Hadv Hprev Hans.
  - exists []. simpl. rewrite app_nil_r. repeat split.
  - destruct Hans as ((r & Hr) & Hrest).
    pose proof Hadv as (Hlat & Hov).
    pose proof (SendFacts.send_card_exchanges world card m) as Hex.
    pose proof (SendFacts.send_card_result world card m) as Hres.
    pose proof (SendFacts.send_card_next_call world card m) as Hnext.
    pose proof (SendFacts.issue_time_paced world m (Hov _)) as Hpaced.
    destruct (SendFacts.send_card_keeps_settings world card m) as (Hurl & Hrate).
    destruct (SendFacts.send_card_stamp world card m r Hr) as (Hstamp & _).
    unfold card_request in Hres. rewrite Hr in Hres.
    cbn [send_each]. unfold bind.
    destruct (send_card world card m) as [verdict m1]. simpl in *.
    subst verdict.
    rewrite <- Hurl, <- Hnext in Hrest.
    destruct (IH (if (status_code r =? 200)%Z
                  then mkTally (success results + 1) (failed results)
                  else mkTally (success results) (failed results + 1))
                 m1 (issue_time world m) Hadv) as (fresh & Hfresh & Hlen & Hsp);
      [ rewrite Hstamp; specialize (Hlat (next_call m)); lra | exact Hrest | ].
    exists ((issue_time world m, card_request (self m) card) :: fresh).
    split; [|split].
    + rewrite Hfresh, Hex, <- app_assoc. reflexivity.
    + simpl. rewrite Hlen. reflexivity.
    + simpl. split; [lra|]. rewrite <- Hrate. exact Hsp.
Qed.

(** X22: When every POST of a batch comes back with a response, the batch
    issues one POST per card, each at least the minimum delay after
    the one before it, and the first at least the minimum delay after
    the stamp the sender held. *)
Theorem batch_posts_are_spaced :
  forall world cards (m : machine TeamsWebhookSender),
    time_advances world ->
    all_answered world (webhook_url (self m)) (next_call m) cards ->
    List.length (issue_times_since m (snd (send_batch world cards m)))
    = List.length cards
    /\ spaced (rate_limit (self m)) (last_send_time (self m))
         (issue_times_since m (snd (send_batch world cards m))).
Proof.
  intros world cards m Hadv Hans.
  destruct (send_each_spaced world cards (mkTally 0 0) m (last_send_time (self m))
              Hadv (Qle_refl _) Hans) as (fresh & Hfresh & Hlen & Hsp).
  unfold issue_times_since, send_batch. rewrite Hfresh.
  rewrite skipn_app, skipn_all, Nat.sub_diag. simpl.
  split; [rewrite length_map; exact Hlen | exact Hsp].
Qed.

Lemma steady_time_advances : time_advances MoreSamples.steady_webhook.
Proof. split; intros; simpl; lra. Qed.

Lemma batch_posts_are_spaced_witness :
  List.length (issue_times_since Samples.first_entry
                 (snd (send_batch MoreSamples.steady_webhook Samples.four_cards
                         Samples.first_entry))) = 4
  /\ spaced (25 # 100) 0
        (issue_times_since Samples.first_entry
           (snd (send_batch MoreSamples.steady_webhook Samples.four_cards
                   Samples.first_entry))).
Proof.
  apply (batch_posts_are_spaced MoreSamples.steady_webhook Samples.four_cards
           Samples.first_entry steady_time_advances).
  simpl. repeat split; eexists; reflexivity.
Defined.

End SendMore.

(** ** The integration *)

Module OrchestratorFacts.
Import Http Orchestrator.

Lemma split_on_nonempty (sep : ascii) (s : string) : split_on sep s <> [].
Proof.
  destruct s as [|c rest]; simpl; [discriminate|].
  destruct (Ascii.eqb c sep); [discriminate|].
  destruct (split_on sep rest); discriminate.
Qed.

Lemma concat_cons (sep piece : string) (pieces : list string) :
  pieces <> [] ->
  String.concat sep (piece :: pieces) = piece ++ sep ++ String.concat sep pieces.
Proof. destruct pieces; [contradiction | reflexivity]. Qed.

Lemma concat_push (sep : string) (c : ascii) (piece : string) (pieces : list string) :
  String.concat sep (String c piece :: pieces)
  = String c (String.concat sep (piece :: pieces)).
Proof. destruct pieces; reflexivity. Qed.

Lemma split_on_join (s : string) :
  String.concat (String comma "") (split_on comma s) = s.
Proof.
  induction s as [|c rest IH]; [reflexivity|].
  simpl. destruct (Ascii.eqb_spec c comma) as [->|Hc].
  - rewrite concat_cons by apply split_on_nonempty.
    rewrite IH. reflexivity.
  - pose proof (split_on_nonempty comma rest) as Hne.
    destruct (split_on comma rest) as [|piece pieces]; [contradiction|].
    rewrite concat_push, IH. reflexivity.
Qed.

(** X23: [split(',')] loses nothing: it never gives an empty list, no piece
    holds a comma, and joining the pieces with commas gives the text
    back. *)
Theorem split_on_round_trip :
  forall s : string,
    String.concat (String comma "") (split_on comma s) = s
    /\ split_on comma s <> []
    /\ Forall (fun piece => mentions comma piece = false) (split_on comma s).
Proof.
  intros s. split; [apply split_on_join|split; [apply split_on_nonempty|]].
  - induction s as [|c rest IH]; [repeat constructor|].
    simpl. destruct (Ascii.eqb_spec c comma) as [->|Hc].
    + constructor; [reflexivity | exact IH].
    + pose proof (split_on_nonempty comma rest) as Hne.
      destruct (split_on comma rest) as [|piece pieces]; [contradiction|].
      inversion IH as [|? ? Hpiece Hpieces]; subst.
      constructor; [|exact Hpieces].
      cbn [mentions]. rewrite Hpiece.
      destruct (Ascii.eqb_spec comma c); [congruence | reflexivity].
Qed.


(** *** [__init__] *)

(** X24: With a poll interval that parses, [__init__] succeeds exactly when
    the API token and the webhook URL are both set and not empty. What
    it builds holds no access token: the fetch client is made right
    after the auth object, so its header reads "Bearer None". *)
Theorem init_checks_configuration :
  forall getenv int_of templates minutes,
    int_of (getenv_or getenv "POLL_MINUTES" "60") = Returned minutes ->
    ((exists it, __init__ getenv int_of templates = Returned it)
     <-> missing (getenv "FIELDWIRE_API_TOKEN") = false
         /\ missing (getenv "TEAMS_WEBHOOK_URL") = false)
    /\ (forall it,
          __init__ getenv int_of templates = Returned it ->
          Auth.access_token (auth it) = VNone
          /\ Fetch.headers (fetch it)
             = [ ("Authorization", "Bearer None");
                 ("Content-Type", "application/json") ]
          /\ getenv "FIELDWIRE_API_TOKEN" = Some (api_token it)
          /\ getenv "TEAMS_WEBHOOK_URL" = Some (webhook_url it)
          /\ Send.webhook_url (sender it) = webhook_url it
          /\ Send.rate_limit (sender it) = Send.default_rate_limit
          /\ poll_minutes it = minutes).
Proof.
  intros getenv int_of templates minutes Hint.
  unfold __init__. rewrite Hint. simpl.
  destruct (getenv "FIELDWIRE_API_TOKEN") as [token|];
    destruct (getenv "TEAMS_WEBHOOK_URL") as [hook|]; simpl.
  - destruct (String.eqb token ""); destruct (String.eqb hook ""); simpl.
    + split; [split; [intros (it & H); discriminate | intros (H & _); discriminate]
             | intros it H; discriminate].
    + split; [split; [intros (it & H); discriminate | intros (H & _); discriminate]
             | intros it H; discriminate].
    + split; [split; [intros (it & H); discriminate | intros (_ & H); discriminate]
             | intros it H; discriminate].
    + split; [split; [intros _; split; reflexivity | intros _; eexists; reflexivity]|].
      intros it H. injection H as <-. simpl. repeat split.
  - rewrite orb_true_r.
    split; [split; [intros (it & H); discriminate | intros (_ & H); discriminate]
           | intros it H; discriminate].
  - split; [split; [intros (it & H); discriminate | intros (H & _); discriminate]
           | intros it H; discriminate].
  - split; [split; [intros (it & H); discriminate | intros (H & _); discriminate]
           | intros it H; discriminate].
Qed.

Lemma init_checks_configuration_witness :
  Orchestrator.__init__ MoreSamples.sample_getenv MoreSamples.sample_int_of
    MoreSamples.sample_templates
  = Returned MoreSamples.sample_integration.
Proof.
  destruct (proj2 (proj1 (init_checks_configuration MoreSamples.sample_getenv
                            MoreSamples.sample_int_of MoreSamples.sample_templates
                            60%Z eq_refl))
                  (conj eq_refl eq_refl)) as (it & Hit).
  rewrite Hit. vm_compute in Hit. injection Hit as <-. reflexivity.
Defined.



(** *** The cycle *)

Lemma set_auth_same it : set_auth (auth it) it = it.
Proof. destruct it; reflexivity. Qed.

Lemma set_sender_same it : set_sender (sender it) it = it.
Proof. destruct it; reflexivity. Qed.

Lemma fetch_step_refl it m : fetch_step it m m.
Proof.
  split; [reflexivity|]. exists []. split; [symmetry; apply app_nil_r | constructor].
Qed.

Lemma fetch_step_trans it m1 m2 m3 :
  fetch_step it m1 m2 -> fetch_step it m2 m3 -> fetch_step it m1 m3.
Proof.
  intros (Hs1 & g1 & Hi1 & Hf1) (Hs2 & g2 & Hi2 & Hf2).
  split; [congruence|].
  exists (g1 ++ g2)%list. split.
  - rewrite Hi2, Hi1, app_assoc. reflexivity.
  - apply Forall_app. split; assumption.
Qed.

Section Steps.

Variable world : environment.
Variable json_loads : string -> outcome value.
Variable it : FieldwireToTeamsIntegration.

Lemma fetches_only_ret {A} (a : A) : fetches_only it (ret a).
Proof. intros m. apply fetch_step_refl. Qed.

Lemma fetches_only_lift {A} (c : outcome A) : fetches_only it (lift c).
Proof. intros m. apply fetch_step_refl. Qed.

Lemma fetches_only_bind {A B} (c : prog _ A) (k : A -> prog _ B) :
  fetches_only it c -> (forall a, fetches_only it (k a)) ->
  fetches_only it (bind c k).
Proof.
  intros Hc Hk m. unfold bind. specialize (Hc m).
  destruct (c m) as [[a|e] m1]; simpl in *.
  - eapply fetch_step_trans; [exact Hc | apply Hk].
  - exact Hc.
Qed.

(** A method of the fetch client, called from the integration. *)
Lemma fetch_step_after (m : machine FieldwireToTeamsIntegration) op :
  fetch_step it m (auth_back m (Fetch.after world (fetch it) (auth_view m) op)).
Proof.
  split.
  - unfold auth_back. simpl. rewrite FetchFacts.after_keeps_auth. simpl.
    apply set_auth_same.
  - unfold issued, auth_back. simpl. rewrite FetchFacts.after_exchanges. simpl.
    rewrite map_app.
    destruct (Fetch.request_of world (fetch it) (auth_view m) op) as [req|] eqn:E.
    + exists [req]. split; [reflexivity|].
      constructor; [|constructor].
      eapply FetchFacts.request_of_from_client. exact E.
    + exists []. split; [reflexivity | constructor].
Qed.

Lemma fetches_only_get_projects ids :
  fetches_only it (on_auth (Fetch.get_projects world (fetch it) ids)).
Proof. intros m. apply (fetch_step_after m (Fetch.GetProjects ids)). Qed.

Lemma fetches_only_get_tasks pid minutes :
  fetches_only it (on_auth (Fetch.get_tasks world (fetch it) pid minutes)).
Proof. intros m. apply (fetch_step_after m (Fetch.GetTasks pid minutes)). Qed.

Lemma fetches_only_get_task_attachments pid tid :
  fetches_only it (on_auth (Fetch.get_task_attachments world (fetch it) pid tid)).
Proof. intros m. apply (fetch_step_after m (Fetch.GetTaskAttachments pid tid)). Qed.

Lemma fetches_only_each_task project tasks : forall all_cards,
  fetches_only it (each_task world json_loads it project tasks all_cards).
Proof.
  induction tasks as [|task rest IH]; intros all_cards.
  - apply fetches_only_ret.
  - cbn [each_task].
    apply fetches_only_bind; [apply fetches_only_lift | intros project_id].
    apply fetches_only_bind; [apply fetches_only_lift | intros task_id].
    apply fetches_only_bind;
      [apply fetches_only_get_task_attachments | intros attachments].
    apply fetches_only_bind; [apply fetches_only_lift | intros card].
    apply IH.
Qed.

Lemma fetches_only_each_project projects : forall all_cards,
  fetches_only it (each_project world json_loads it projects all_cards).
Proof.
  induction projects as [|project rest IH]; intros all_cards.
  - apply fetches_only_ret.
  - cbn [each_project].
    apply fetches_only_bind; [apply fetches_only_lift | intros project_id].
    apply fetches_only_bind; [apply fetches_only_get_tasks | intros tasks].
    apply fetches_only_bind; [apply fetches_only_lift | intros items].
    apply fetches_only_bind; [apply fetches_only_each_task | intros cards].
    apply IH.
Qed.

End Steps.

(** The POSTs of a batch all go to the webhook of the sender. *)
Lemma send_each_posts world cards :
  forall results (sm : machine Send.TeamsWebhookSender),
  exists posts,
    issued (snd (Send.send_each world cards results sm)) = (issued sm ++ posts)%list
    /\ Forall (webhook_post (self sm)) posts.
Proof.
  induction cards as [|card rest IH]; intros results sm.
  - exists []. split; [symmetry; apply app_nil_r | constructor].
  - cbn [Send.send_each]. unfold bind.
    pose proof (SendFacts.send_card_exchanges world card sm) as Hex.
    destruct (SendFacts.send_card_keeps_settings world card sm) as (Hurl & _).
    destruct (Send.send_card world card sm) as [[ok|e] sm1]; simpl in *.
    + destruct (IH (if ok
                    then Send.mkTally (Send.success results + 1) (Send.failed results)
                    else Send.mkTally (Send.success results) (Send.failed results + 1))
                   sm1) as (posts & Hi & Hp).
      exists (Send.card_request (self sm) card :: posts). split.
      * rewrite Hi. unfold issued at 1. rewrite Hex, map_app, <- app_assoc.
        reflexivity.
      * constructor; [exists card; reflexivity|].
        eapply Forall_impl; [|exact Hp].
        intros req (c & ->). exists c.
        unfold Send.card_request. rewrite Hurl. reflexivity.
    + exists [Send.card_request (self sm) card]. split.
      * unfold issued. rewrite Hex, map_app. reflexivity.
      * constructor; [exists card; reflexivity | constructor].
Qed.

(** Delivery writes to the sender only, and only posts cards. *)
Lemma deliver_step world cards (m : machine FieldwireToTeamsIntegration) :
  self (snd (deliver world cards m))
  = set_sender (sender (self (snd (deliver world cards m)))) (self m)
  /\ exists posts,
       issued (snd (deliver world cards m)) = (issued m ++ posts)%list
       /\ Forall (webhook_post (sender (self m))) posts.
Proof.
  destruct cards as [|card rest].
  - simpl. split; [symmetry; apply set_sender_same|].
    exists []. split; [symmetry; apply app_nil_r | constructor].
  - unfold deliver, bind, on_sender, Send.send_batch.
    destruct (send_each_posts world (card :: rest) (Send.mkTally 0 0) (sender_view m))
      as (posts & Hi & Hp).
    destruct (Send.send_each world (card :: rest) (Send.mkTally 0 0) (sender_view m))
      as [[counts|e] sm1]; simpl in *.
    + split; [destruct (self m); reflexivity|]. exists posts. split; assumption.
    + split; [destruct (self m); reflexivity|]. exists posts. split; assumption.
Qed.

(** The shape of a cycle: a fetch phase, then possibly a delivery. *)
Lemma cycle_shape world json_loads (m : machine FieldwireToTeamsIntegration) :
  exists fetched,
    fetch_step (self m) m fetched
    /\ (snd (cycle world json_loads m) = fetched
        \/ exists cards,
             cycle world json_loads m = deliver world cards fetched).
Proof.
  unfold cycle, bind, get_self, lift. cbv beta.
  pose proof (fetches_only_get_projects world (self m)
                (Some (project_ids (self m))) m) as H1.
  destruct (on_auth _ m) as [[projects|e] m1]; cbn [snd] in H1.
  - destruct (negb (truthy projects)).
    + exists m1. split; [exact H1 | left; reflexivity].
    + destruct (py_iter projects) as [items|e].
      * pose proof (fetches_only_each_project world json_loads (self m) items [] m1)
          as H2.
        destruct (each_project world json_loads (self m) items [] m1)
          as [[cards|e] m2]; cbn [snd] in H2.
        -- exists m2. split; [eapply fetch_step_trans; eassumption|].
           right. exists cards. reflexivity.
        -- exists m2. split; [eapply fetch_step_trans; eassumption|].
           left. reflexivity.
      * exists m1. split; [exact H1 | left; reflexivity].
  - exists m1. split; [exact H1 | left; reflexivity].
Qed.

Lemma process_tasks_state world json_loads (m : machine FieldwireToTeamsIntegration) :
  fst (process_tasks world json_loads m) = Returned tt
  /\ snd (process_tasks world json_loads m) = snd (cycle world json_loads m).
Proof.
  unfold process_tasks, try_except_any.
  destruct (cycle world json_loads m) as [[[]|e] m1]; split; reflexivity.
Qed.

(** What a cycle leaves behind, whether it returned or raised. *)
Lemma cycle_trace world json_loads (m : machine FieldwireToTeamsIntegration) :
  self (snd (cycle world json_loads m))
  = set_sender (sender (self (snd (cycle world json_loads m)))) (self m)
  /\ auth (self (snd (cycle world json_loads m))) = auth (self m)
  /\ exists gets posts,
       issued (snd (cycle world json_loads m)) = (issued m ++ gets ++ posts)%list
       /\ Forall (Fetch.from_client (fetch (self m))) gets
       /\ Forall (webhook_post (sender (self m))) posts.
Proof.
  destruct (cycle_shape world json_loads m)
    as (fetched & (Hself & gets & Hi & Hg) & [Hend | (cards & Hend)]).
  - rewrite Hend, Hself. split; [symmetry; apply set_sender_same|].
    split; [reflexivity|].
    exists gets, []. rewrite app_nil_r. repeat split; [exact Hi | exact Hg | constructor].
  - rewrite Hend.
    destruct (deliver_step world cards fetched) as (Hs & posts & Hp & Hw).
    rewrite Hself in Hs, Hw.
    split; [exact Hs|]. split; [rewrite Hs; destruct (self m); reflexivity|].
    exists gets, posts. rewrite Hp, Hi, app_assoc. repeat split; assumption.
Qed.

(** X26: [process_tasks] never raises and never authenticates. Of the
    integration object only the sender can change: the auth object
    keeps the token it had. The requests of a cycle are requests of the
    fetch client, all with the client's frozen header and none of them
    a POST, followed by the POSTs of cards to the webhook. *)
Theorem process_tasks_never_authenticates :
  forall world json_loads (m : machine FieldwireToTeamsIntegration),
    fst (process_tasks world json_loads m) = Returned tt
    /\ self (snd (process_tasks world json_loads m))
       = set_sender (sender (self (snd (process_tasks world json_loads m))))
                    (self m)
    /\ auth (self (snd (process_tasks world json_loads m))) = auth (self m)
    /\ exists gets posts,
         issued (snd (process_tasks world json_loads m))
         = (issued m ++ gets ++ posts)%list
         /\ Forall (Fetch.from_client (fetch (self m))) gets
         /\ Forall (webhook_post (sender (self m))) posts.
Proof.
  intros world json_loads m.
  destruct (process_tasks_state world json_loads m) as (Hfst & ->).
  split; [exact Hfst | apply cycle_trace].
Qed.

(** X27: The integration as [__init__] wires it never sends a token: in
    every cycle, the first or a later one, the fetch requests carry
    "Authorization: Bearer None", and the auth object still holds no
    token afterwards, so the next cycle is in the same position. *)
Theorem wired_integration_sends_bearer_none :
  forall getenv int_of templates it world json_loads
         (m : machine FieldwireToTeamsIntegration),
    __init__ getenv int_of templates = Returned it ->
    auth (self m) = auth it ->
    fetch (self m) = fetch it ->
    auth (self (snd (process_tasks world json_loads m))) = auth it
    /\ fetch (self (snd (process_tasks world json_loads m))) = fetch it
    /\ Auth.access_token (auth (self (snd (process_tasks world json_loads m))))
       = VNone
    /\ exists gets posts,
         issued (snd (process_tasks world json_loads m))
         = (issued m ++ gets ++ posts)%list
         /\ Forall (fun req =>
                      Http.headers req
                      = [ ("Authorization", "Bearer None");
                          ("Content-Type", "application/json") ]
                      /\ method req <> POST) gets
         /\ Forall (webhook_post (sender (self m))) posts.
Proof.
  intros getenv int_of templates it world json_loads m Hit Hauth Hfetch.
  assert (Hwired : Auth.access_token (auth it) = VNone
                   /\ Fetch.headers (fetch it)
                      = [ ("Authorization", "Bearer None");
                          ("Content-Type", "application/json") ]).
  { unfold __init__ in Hit.
    destruct (int_of _); [|discriminate]. simpl in Hit.
    destruct (missing _ || missing _); [discriminate|].
    injection Hit as <-. split; reflexivity. }
  destruct Hwired as (Htoken & Hheaders).
  destruct (process_tasks_state world json_loads m) as (_ & Hstate).
  rewrite Hstate.
  destruct (cycle_trace world json_loads m)
    as (Hself & Hkeep & gets & posts & Hi & Hg & Hp).
  split; [congruence|].
  split; [rewrite Hself; destruct (self m); simpl in *; exact Hfetch|].
  split; [congruence|].
  exists gets, posts. split; [exact Hi|]. split; [|exact Hp].
  eapply Forall_impl; [|exact Hg].
  intros req (Hh & Hm). split; [|exact Hm].
  rewrite Hh, Hfetch. exact Hheaders.
Qed.

Lemma wired_integration_sends_bearer_none_witness :
  Auth.access_token
    (auth (self (snd (process_tasks Samples.fieldwire_api Card.text_loads
                        MoreSamples.sample_machine)))) = VNone.
Proof.
  apply (wired_integration_sends_bearer_none MoreSamples.sample_getenv
           MoreSamples.sample_int_of MoreSamples.sample_templates
           MoreSamples.sample_integration Samples.fieldwire_api Card.text_loads
           MoreSamples.sample_machine);
    reflexivity.
Defined.

(** X28: When the project listing gives nothing to work on (an empty list
    after a transport failure or a filter that matches nothing, or an
    exception), the cycle ends there: one request was made, and the
    integration object is untouched. *)
Theorem no_projects_ends_the_cycle :
  forall world json_loads (m : machine FieldwireToTeamsIntegration),
    (forall v,
        fst (Fetch.get_projects world (fetch (self m)) (Some (project_ids (self m)))
               (auth_view m)) = Returned v ->
        truthy v = false) ->
    self (snd (process_tasks world json_loads m)) = self m
    /\ issued (snd (process_tasks world json_loads m))
       = (issued m ++ [Fetch.projects_request (fetch (self m))])%list.
Proof.
  intros world json_loads m Hnone.
  destruct (process_tasks_state world json_loads m) as (_ & ->).
  pose proof (fetch_step_after world (self m) m
                (Fetch.GetProjects (Some (project_ids (self m))))) as (Hself & _).
  assert (Hstate : snd (cycle world json_loads m)
                   = auth_back m (Fetch.after world (fetch (self m)) (auth_view m)
                                    (Fetch.GetProjects (Some (project_ids (self m)))))).
  { unfold cycle, bind, get_self, on_auth. cbv beta. cbn [Fetch.after].
    destruct (Fetch.get_projects world (fetch (self m))
                (Some (project_ids (self m))) (auth_view m)) as [[v|e] am] eqn:E.
    - cbn [fst snd]. specialize (Hnone v eq_refl). rewrite Hnone. reflexivity.
    - reflexivity. }
  rewrite Hstate. split; [exact Hself|].
  unfold issued, auth_back. cbn [exchanges].
  rewrite FetchFacts.after_exchanges, map_app. reflexivity.
Qed.

Lemma no_projects_ends_the_cycle_witness :
  issued (snd (process_tasks Samples.unreachable_api Card.text_loads
                 MoreSamples.sample_machine))
  = [Fetch.projects_request (fetch MoreSamples.sample_integration)].
Proof.
  apply (no_projects_ends_the_cycle Samples.unreachable_api Card.text_loads
           MoreSamples.sample_machine).
  intros v H. injection H as <-. reflexivity.
Defined.

Lemma sends_return_always world target cards : forall k,
  (forall i req e, transport world i req = Raised e -> is_request_exception e = true) ->
  Send.sends_return world target k cards.
Proof.
  induction cards as [|card rest IH]; intros k Hreq; simpl; [exact I|].
  split; [intros e; apply Hreq | apply IH, Hreq].
Qed.

(** X29: With a transport that raises nothing but [RequestException]s, a
    cycle that ends in an exception has posted nothing: whatever cards
    it had built are dropped, and the sender is untouched. *)
Theorem failed_cycle_posts_nothing :
  forall world json_loads (m : machine FieldwireToTeamsIntegration) e,
    (forall i req e', transport world i req = Raised e' ->
                      is_request_exception e' = true) ->
    fst (cycle world json_loads m) = Raised e ->
    self (snd (process_tasks world json_loads m)) = self m
    /\ exists gets,
         issued (snd (process_tasks world json_loads m)) = (issued m ++ gets)%list
         /\ Forall (Fetch.from_client (fetch (self m))) gets.
Proof.
  intros world json_loads m e Hreq Hraised.
  destruct (process_tasks_state world json_loads m) as (_ & ->).
  destruct (cycle_shape world json_loads m)
    as (fetched & Hstep & [Hend | (cards & Hend)]).
  - rewrite Hend. exact Hstep.
  - exfalso. rewrite Hend in Hraised.
    destruct cards as [|card rest]; [discriminate Hraised|].
    unfold deliver, bind, on_sender in Hraised. cbn [fst] in Hraised.
    destruct (SendFacts.send_each_spec world (card :: rest) (Send.mkTally 0 0)
                (sender_view fetched)) as (sm & Hrun & _).
    { apply sends_return_always, Hreq. }
    unfold Send.send_batch in Hraised. rewrite Hrun in Hraised.
    discriminate Hraised.
Qed.

Lemma failed_cycle_posts_nothing_witness :
  sender (self (snd (process_tasks MoreSamples.stray_task_api Card.text_loads
                       MoreSamples.sample_machine)))
  = sender MoreSamples.sample_integration.
Proof.
  destruct (failed_cycle_posts_nothing MoreSamples.stray_task_api Card.text_loads
              MoreSamples.sample_machine
              (AttributeError "object has no attribute 'get'")) as (Hself & _).
  - intros i req e' H. discriminate H.
  - reflexivity.
  - rewrite Hself. reflexivity.
Defined.

End OrchestratorFacts.
